(** * httptimeout: deadline-setting wrappers around net.Conn and net.Listener

    A shallow embedding of the two Go packages of the repository,
    [timeout] (src/timeout.go) and [httptimeout] (src/unnamed/part_000),
    and the proofs of their specification.

    The packages are thin layers over the Go runtime: every interesting
    step is a call into [net], [time] or [crypto/tls].  The embedding
    therefore represents a Go function body as a finite tree of such
    calls ([Prog]), to be run against an arbitrary environment
    ([handler]) that answers them, together with a store for the objects
    the packages allocate with [&T{...}]. *)

From stdpp Require Import base list strings.
From Stdlib Require Import ZArith.

Open Scope Z_scope.

(** ** Data of the Go runtime the packages handle *)

(** [time.Duration] is an int64 count of nanoseconds.  The packages only
    store durations and hand them to [time.Time.Add] and
    [net.DialTimeout]; they do no arithmetic of their own on them. *)
Definition Duration := Z.

(** [time.Time], as an instant in nanoseconds; [t.Add(d)] is [t + d]. *)
Definition Time := Z.
Definition Time_Add (t : Time) (d : Duration) : Time := t + d.

(** The Go [error] interface: [None] is the nil error, [Some msg] an
    error value, identified by its message. *)
Definition error := option string.

(** A pointer to an object allocated by these packages ([&Conn{...}],
    [&Listener{...}], [&tls.Config{}]): an index in the [heap] below. *)
Abbreviation ptr := nat (only parsing).

(** A value of interface type [net.Conn]: nil, a connection owned by the
    runtime (identified by its descriptor), or a [*Conn] of this
    package. *)
Inductive net_Conn : Type :=
| nil_Conn
| sys_Conn (fd : nat)
| ptr_Conn (p : ptr).

(** A value of interface type [net.Listener]: nil, a listener of the
    runtime, the listener that [tls.NewListener(inner, config)] builds,
    or a [*Listener] of this package. *)
Inductive net_Listener : Type :=
| nil_Listener
| sys_Listener (fd : nat)
| tls_NewListener (inner : net_Listener) (config : ptr)
| ptr_Listener (p : ptr).

(** A value of interface type [net.Addr] ([None] is nil). *)
Record Addr := { Addr_Network : string; Addr_String : string }.
Definition net_Addr := option Addr.

(** A [[]byte] argument: the slice header.  The bytes themselves live in
    the runtime's memory and are never touched by the wrappers. *)
Record slice := { Data : nat; Len : nat; Cap : nat }.

(** [tls.Certificate]; the zero value is what [make] fills a fresh slice
    with. *)
Record tls_Certificate := { Certificate : list string; PrivateKey : string }.
Definition zero_Certificate : tls_Certificate :=
  {| Certificate := []; PrivateKey := "" |}.

(** The two fields of [tls.Config] that the packages assign.
    [NextProtos = None] is the nil slice. *)
Record tls_Config := {
  NextProtos : option (list string);
  Certificates : list tls_Certificate
}.
Definition zero_Config : tls_Config :=
  {| NextProtos := None; Certificates := [] |}.

(** ** The structs of the packages *)

(** [type Conn struct { net.Conn; ReadTimeout, WriteTimeout time.Duration }] *)
Record Conn := {
  Conn_Conn : net_Conn;
  Conn_ReadTimeout : Duration;
  Conn_WriteTimeout : Duration
}.

(** [type Listener struct { net.Listener; ReadTimeout, WriteTimeout time.Duration }] *)
Record Listener := {
  Listener_Listener : net_Listener;
  Listener_ReadTimeout : Duration;
  Listener_WriteTimeout : Duration
}.

(** ** The store of allocated objects *)

Inductive obj : Type :=
| OConn (c : Conn)
| OListener (l : Listener)
| OConfig (c : tls_Config).

(** The address of an object is its position; allocation appends. *)
Abbreviation heap := (list obj) (only parsing).

(** ** Calls into the runtime *)

Inductive call : Type :=
| time_Now
| net_Conn_SetDeadline (c : net_Conn) (t : Time)
| net_Conn_SetReadDeadline (c : net_Conn) (t : Time)
| net_Conn_SetWriteDeadline (c : net_Conn) (t : Time)
| net_Conn_Read (c : net_Conn) (b : slice)
| net_Conn_Write (c : net_Conn) (b : slice)
| net_Conn_Close (c : net_Conn)
| net_Conn_LocalAddr (c : net_Conn)
| net_Conn_RemoteAddr (c : net_Conn)
| net_Listener_Accept (l : net_Listener)
| net_Listener_Close (l : net_Listener)
| net_Listener_Addr (l : net_Listener)
| net_Listen (network address : string)
| net_DialTimeout (network address : string) (timeout : Duration)
| tls_LoadX509KeyPair (certFile keyFile : string).

(** What each call returns to its caller. *)
Definition resp (c : call) : Type :=
  match c with
  | time_Now => Time
  | net_Conn_SetDeadline _ _
  | net_Conn_SetReadDeadline _ _
  | net_Conn_SetWriteDeadline _ _
  | net_Conn_Close _
  | net_Listener_Close _ => error
  | net_Conn_Read _ _
  | net_Conn_Write _ _ => Z * error
  | net_Conn_LocalAddr _
  | net_Conn_RemoteAddr _
  | net_Listener_Addr _ => net_Addr
  | net_Listener_Accept _
  | net_DialTimeout _ _ _ => net_Conn * error
  | net_Listen _ _ => net_Listener * error
  | tls_LoadX509KeyPair _ _ => tls_Certificate * error
  end.

(** ** Programs *)

(** A function body: it returns, panics, calls the runtime and goes on
    with the answer, or allocates, reads or overwrites an object. *)
Inductive Prog (A : Type) : Type :=
| Ret (a : A)
| Panic
| Call (c : call) (k : resp c -> Prog A)
| New (o : obj) (k : ptr -> Prog A)
| Load (p : ptr) (k : obj -> Prog A)
| Store (p : ptr) (o : obj) (k : Prog A).

Arguments Ret {A} a.
Arguments Panic {A}.
Arguments Call {A} c k.
Arguments New {A} o k.
Arguments Load {A} p k.
Arguments Store {A} p o k.

Fixpoint bind {A B : Type} (m : Prog A) (f : A -> Prog B) : Prog B :=
  match m with
  | Ret a => f a
  | Panic => Panic
  | Call c k => Call c (fun r => bind (k r) f)
  | New o k => New o (fun p => bind (k p) f)
  | Load p k => Load p (fun o => bind (k o) f)
  | Store p o k => Store p o (bind k f)
  end.

Declare Scope prog_scope.
Delimit Scope prog_scope with prog.
Bind Scope prog_scope with Prog.
Notation "x <- m ;; k" := (bind m (fun x => k))
  (at level 100, m at next level, right associativity) : prog_scope.

Definition call_ (c : call) : Prog (resp c) := Call c Ret.
Definition new (o : obj) : Prog ptr := New o Ret.
Definition store (p : ptr) (o : obj) : Prog unit := Store p o (Ret tt).

(** Dereferencing a [*Conn], [*Listener] or [*tls.Config]. *)
Definition load_Conn (p : ptr) : Prog Conn :=
  Load p (fun o => match o with OConn c => Ret c | _ => Panic end).
Definition load_Listener (p : ptr) : Prog Listener :=
  Load p (fun o => match o with OListener l => Ret l | _ => Panic end).
Definition load_Config (p : ptr) : Prog tls_Config :=
  Load p (fun o => match o with OConfig c => Ret c | _ => Panic end).

(** ** Running a program *)

(** The environment: for a call made in world [w], the answer and the
    world after it, or [None] when the call does not return (a method
    called on a nil interface value, a call that blocks for ever).  The
    world is everything outside the packages: sockets, deadlines, the
    clock, files.  The runtime has no access to the store of the
    packages' own objects, which only [New] and [Store] change.

    A call whose receiver is itself a [*Conn] or a [*Listener] of the
    packages ([ptr_Conn], [ptr_Listener]: a wrapper around a wrapper) is
    answered by the environment like any other; the environment then
    stands for the method of the inner wrapper.  For [Read], [Write],
    [Close] and the queries that method allocates nothing, and the
    environment is all there is to it.  An inner [Accept] allocates a
    [Conn] of its own, which a handler cannot do: wherever a statement
    below fixes the whole content of the store after an [Accept], it is
    made for a listener of the runtime ([runtime_Listener]). *)
Definition handler (W : Type) : Type := forall c : call, W -> option (resp c * W).

(** What is left when a function has returned: its results, the store,
    the world, and the calls it made, in order. *)
Record final (A W : Type) := Final {
  ret : A;
  hp : heap;
  world : W;
  trace : list call
}.
Arguments Final {A W} ret hp world trace.
Arguments ret {A W} f.
Arguments hp {A W} f.
Arguments world {A W} f.
Arguments trace {A W} f.

Definition logged {A W : Type} (c : call) (f : final A W) : final A W :=
  Final (ret f) (hp f) (world f) (c :: trace f).

Fixpoint run {A W : Type} (h : handler W) (m : Prog A) (σ : heap) (w : W)
  : option (final A W) :=
  match m with
  | Ret a => Some (Final a σ w [])
  | Panic => None
  | Call c k =>
      match h c w with
      | Some (r, w') =>
          match run h (k r) σ w' with
          | Some f => Some (logged c f)
          | None => None
          end
      | None => None
      end
  | New o k => run h (k (length σ)) (σ ++ [o]) w
  | Load p k =>
      match σ !! p with
      | Some o => run h (k o) σ w
      | None => None
      end
  | Store p o k =>
      match σ !! p with
      | Some _ => run h k (<[p:=o]> σ) w
      | None => None
      end
  end.

(** What a call made directly on the runtime leaves: its answer, the
    store as it was, the world after the call, and that one call. *)
Definition underlying {W : Type} (h : handler W) (k : call) (σ : heap) (w : W)
  : option (final (resp k) W) :=
  match h k w with
  | Some (r, w') => Some (Final r σ w' [k])
  | None => None
  end.

(** The same outcome, reached after the calls [cs]. *)
Definition preceded_by {A W : Type} (cs : list call) (r : option (final A W))
  : option (final A W) :=
  match r with
  | Some f => Some (Final (ret f) (hp f) (world f) (cs ++ trace f))
  | None => None
  end.

(** ** Methods of [Conn] (both packages, same text) *)

(** [func (c *Conn) Read(b []byte) (int, error)] *)
Definition Conn_Read (c : ptr) (b : slice) : Prog (Z * error) :=
  (c0 <- load_Conn c ;;
   now <- call_ time_Now ;;
   err <- call_ (net_Conn_SetReadDeadline (Conn_Conn c0)
                   (Time_Add now (Conn_ReadTimeout c0))) ;;
   match err with
   | Some e => Ret (0, Some e)
   | None =>
       c1 <- load_Conn c ;;
       call_ (net_Conn_Read (Conn_Conn c1) b)
   end)%prog.

(** [func (c *Conn) Write(b []byte) (int, error)] *)
Definition Conn_Write (c : ptr) (b : slice) : Prog (Z * error) :=
  (c0 <- load_Conn c ;;
   now <- call_ time_Now ;;
   err <- call_ (net_Conn_SetWriteDeadline (Conn_Conn c0)
                   (Time_Add now (Conn_WriteTimeout c0))) ;;
   match err with
   | Some e => Ret (0, Some e)
   | None =>
       c1 <- load_Conn c ;;
       call_ (net_Conn_Write (Conn_Conn c1) b)
   end)%prog.

(** The methods that [Conn] gets from the embedded [net.Conn]: a call
    [c.Close()] is [c.Conn.Close()], and so on. *)
Definition Conn_Close (c : ptr) : Prog error :=
  (c0 <- load_Conn c ;; call_ (net_Conn_Close (Conn_Conn c0)))%prog.
Definition Conn_LocalAddr (c : ptr) : Prog net_Addr :=
  (c0 <- load_Conn c ;; call_ (net_Conn_LocalAddr (Conn_Conn c0)))%prog.
Definition Conn_RemoteAddr (c : ptr) : Prog net_Addr :=
  (c0 <- load_Conn c ;; call_ (net_Conn_RemoteAddr (Conn_Conn c0)))%prog.
Definition Conn_SetDeadline (c : ptr) (t : Time) : Prog error :=
  (c0 <- load_Conn c ;; call_ (net_Conn_SetDeadline (Conn_Conn c0) t))%prog.
Definition Conn_SetReadDeadline (c : ptr) (t : Time) : Prog error :=
  (c0 <- load_Conn c ;; call_ (net_Conn_SetReadDeadline (Conn_Conn c0) t))%prog.
Definition Conn_SetWriteDeadline (c : ptr) (t : Time) : Prog error :=
  (c0 <- load_Conn c ;; call_ (net_Conn_SetWriteDeadline (Conn_Conn c0) t))%prog.

(** ** Methods of [Listener] (both packages, same text) *)

(** [func (l *Listener) Accept() (net.Conn, error)] *)
Definition Listener_Accept (l : ptr) : Prog (net_Conn * error) :=
  (l0 <- load_Listener l ;;
   r <- call_ (net_Listener_Accept (Listener_Listener l0)) ;;
   match r with
   | (_, Some e) => Ret (nil_Conn, Some e)
   | (c, None) =>
       l1 <- load_Listener l ;;
       tc <- new (OConn {| Conn_Conn := c;
                           Conn_ReadTimeout := Listener_ReadTimeout l1;
                           Conn_WriteTimeout := Listener_WriteTimeout l1 |}) ;;
       Ret (ptr_Conn tc, None)
   end)%prog.

(** Promoted from the embedded [net.Listener]. *)
Definition Listener_Close (l : ptr) : Prog error :=
  (l0 <- load_Listener l ;; call_ (net_Listener_Close (Listener_Listener l0)))%prog.
Definition Listener_Addr (l : ptr) : Prog net_Addr :=
  (l0 <- load_Listener l ;; call_ (net_Listener_Addr (Listener_Listener l0)))%prog.

(** ** Constructors *)

(** [http.Transport], reduced to the one field the packages assign; the
    zero value has a nil [Dial]. *)
Record http_Transport := {
  Dial : option (string -> string -> Prog (net_Conn * error))
}.

Definition set_NextProtos (v : option (list string)) (c : tls_Config) : tls_Config :=
  {| NextProtos := v; Certificates := Certificates c |}.
Definition set_Certificates (v : list tls_Certificate) (c : tls_Config) : tls_Config :=
  {| NextProtos := NextProtos c; Certificates := v |}.

(** The first statement of [NewListenerTLS], in both packages:
    [if config.NextProtos == nil { config.NextProtos = []string{"http/1.1"} }]. *)
Definition default_NextProtos (config : ptr) : Prog unit :=
  (cfg <- load_Config config ;;
   match NextProtos cfg with
   | None => store config (OConfig (set_NextProtos (Some ["http/1.1"%string]) cfg))
   | Some _ => Ret tt
   end)%prog.

(** Package [httptimeout] (src/unnamed/part_000). *)
Module httptimeout.

(** [func NewTransport(addr string, readTimeout, writeTimeout time.Duration) *http.Transport].
    The parameter [addr] of the closure hides the one of [NewTransport]. *)
Definition NewTransport (addr : string) (readTimeout writeTimeout : Duration)
  : http_Transport :=
  {| Dial := Some (fun network addr =>
       (r <- call_ (net_DialTimeout network addr readTimeout) ;;
        match r with
        | (_, Some e) => Ret (nil_Conn, Some e)
        | (conn, None) =>
            tc <- new (OConn {| Conn_Conn := conn;
                                Conn_ReadTimeout := readTimeout;
                                Conn_WriteTimeout := writeTimeout |}) ;;
            Ret (ptr_Conn tc, None)
        end)%prog) |}.

(** [func NewListener(network, addr string, readTimeout, writeTimeout time.Duration) (net.Listener, error)] *)
Definition NewListener (network addr : string) (readTimeout writeTimeout : Duration)
  : Prog (net_Listener * error) :=
  (r <- call_ (net_Listen network addr) ;;
   match r with
   | (_, Some e) => Ret (nil_Listener, Some e)
   | (conn, None) =>
       tl <- new (OListener {| Listener_Listener := conn;
                               Listener_ReadTimeout := readTimeout;
                               Listener_WriteTimeout := writeTimeout |}) ;;
       Ret (ptr_Listener tl, None)
   end)%prog.

(** [func NewListenerTLS(network, addr, certFile, keyFile string, readTimeout, writeTimeout time.Duration) (net.Listener, error)] *)
Definition NewListenerTLS (network addr certFile keyFile : string)
    (readTimeout writeTimeout : Duration) : Prog (net_Listener * error) :=
  (config <- new (OConfig zero_Config) ;;
   _ <- default_NextProtos config ;;
   cfg <- load_Config config ;;
   _ <- store config (OConfig (set_Certificates (replicate 1 zero_Certificate) cfg)) ;;
   cfg <- load_Config config ;;
   r <- call_ (tls_LoadX509KeyPair certFile keyFile) ;;
   _ <- (if bool_decide (0 < length (Certificates cfg))%nat
         then store config
                (OConfig (set_Certificates (<[0%nat := r.1]> (Certificates cfg)) cfg))
         else Panic) ;;
   match r.2 with
   | Some e => Ret (nil_Listener, Some e)
   | None =>
       r <- call_ (net_Listen network addr) ;;
       match r with
       | (_, Some e) => Ret (nil_Listener, Some e)
       | (conn, None) =>
           tl <- new (OListener {| Listener_Listener := tls_NewListener conn config;
                                   Listener_ReadTimeout := readTimeout;
                                   Listener_WriteTimeout := writeTimeout |}) ;;
           Ret (ptr_Listener tl, None)
       end
   end)%prog.

End httptimeout.

(** Package [timeout] (src/timeout.go). *)
Module timeout.

(** [func NewTransport(addr string, timeout time.Duration) *http.Transport] *)
Definition NewTransport (addr : string) (timeout : Duration) : http_Transport :=
  {| Dial := Some (fun network addr =>
       (r <- call_ (net_DialTimeout network addr timeout) ;;
        match r with
        | (_, Some e) => Ret (nil_Conn, Some e)
        | (conn, None) =>
            tc <- new (OConn {| Conn_Conn := conn;
                                Conn_ReadTimeout := timeout;
                                Conn_WriteTimeout := timeout |}) ;;
            Ret (ptr_Conn tc, None)
        end)%prog) |}.

(** [func NewListener(addr string, readTimeout, writeTimeout time.Duration) (net.Listener, error)] *)
Definition NewListener (addr : string) (readTimeout writeTimeout : Duration)
  : Prog (net_Listener * error) :=
  (r <- call_ (net_Listen "tcp" addr) ;;
   match r with
   | (_, Some e) => Ret (nil_Listener, Some e)
   | (conn, None) =>
       tl <- new (OListener {| Listener_Listener := conn;
                               Listener_ReadTimeout := readTimeout;
                               Listener_WriteTimeout := writeTimeout |}) ;;
       Ret (ptr_Listener tl, None)
   end)%prog.

(** [func NewListenerTLS(addr, certFile, keyFile string, readTimeout, writeTimeout time.Duration) (net.Listener, error)] *)
Definition NewListenerTLS (addr certFile keyFile : string)
    (readTimeout writeTimeout : Duration) : Prog (net_Listener * error) :=
  (config <- new (OConfig zero_Config) ;;
   _ <- default_NextProtos config ;;
   cfg <- load_Config config ;;
   _ <- store config (OConfig (set_Certificates (replicate 1 zero_Certificate) cfg)) ;;
   cfg <- load_Config config ;;
   r <- call_ (tls_LoadX509KeyPair certFile keyFile) ;;
   _ <- (if bool_decide (0 < length (Certificates cfg))%nat
         then store config
                (OConfig (set_Certificates (<[0%nat := r.1]> (Certificates cfg)) cfg))
         else Panic) ;;
   match r.2 with
   | Some e => Ret (nil_Listener, Some e)
   | None =>
       r <- call_ (net_Listen "tcp" addr) ;;
       match r with
       | (_, Some e) => Ret (nil_Listener, Some e)
       | (conn, None) =>
           tl <- new (OListener {| Listener_Listener := tls_NewListener conn config;
                                   Listener_ReadTimeout := readTimeout;
                                   Listener_WriteTimeout := writeTimeout |}) ;;
           Ret (ptr_Listener tl, None)
       end
   end)%prog.

End timeout.

(** The configuration that [NewListenerTLS] has built when the key pair
    [cert] has been stored in it. *)
Definition built_Config (cert : tls_Certificate) : tls_Config :=
  {| NextProtos := Some ["http/1.1"%string]; Certificates := [cert] |}.

(** ** The operations of the packages, as one type

    Used to state what holds of every operation and of every sequence of
    operations. *)
Inductive method : Type :=
| Read_ (c : ptr) (b : slice)
| Write_ (c : ptr) (b : slice)
| Close_ (c : ptr)
| LocalAddr_ (c : ptr)
| RemoteAddr_ (c : ptr)
| SetDeadline_ (c : ptr) (t : Time)
| SetReadDeadline_ (c : ptr) (t : Time)
| SetWriteDeadline_ (c : ptr) (t : Time)
| Accept_ (l : ptr)
| ListenerClose_ (l : ptr)
| ListenerAddr_ (l : ptr)
| NewListener_ (network addr : string) (readTimeout writeTimeout : Duration)
| NewListenerTLS_ (network addr certFile keyFile : string)
    (readTimeout writeTimeout : Duration)
| Dial_ (addr0 : string) (readTimeout writeTimeout : Duration) (network addr : string)
| NewListener_tcp_ (addr : string) (readTimeout writeTimeout : Duration)
| NewListenerTLS_tcp_ (addr certFile keyFile : string)
    (readTimeout writeTimeout : Duration)
| Dial_single_ (addr0 : string) (timeout : Duration) (network addr : string).

(** Calling the [Dial] field of a transport; a nil function panics. *)
Definition Transport_Dial (t : http_Transport) (network addr : string)
  : Prog (net_Conn * error) :=
  match Dial t with
  | Some dial => dial network addr
  | None => Panic
  end.

(** An operation run for its effect, its results dropped. *)
Definition invoke (m : method) : Prog unit :=
  match m with
  | Read_ c b => bind (Conn_Read c b) (fun _ => Ret tt)
  | Write_ c b => bind (Conn_Write c b) (fun _ => Ret tt)
  | Close_ c => bind (Conn_Close c) (fun _ => Ret tt)
  | LocalAddr_ c => bind (Conn_LocalAddr c) (fun _ => Ret tt)
  | RemoteAddr_ c => bind (Conn_RemoteAddr c) (fun _ => Ret tt)
  | SetDeadline_ c t => bind (Conn_SetDeadline c t) (fun _ => Ret tt)
  | SetReadDeadline_ c t => bind (Conn_SetReadDeadline c t) (fun _ => Ret tt)
  | SetWriteDeadline_ c t => bind (Conn_SetWriteDeadline c t) (fun _ => Ret tt)
  | Accept_ l => bind (Listener_Accept l) (fun _ => Ret tt)
  | ListenerClose_ l => bind (Listener_Close l) (fun _ => Ret tt)
  | ListenerAddr_ l => bind (Listener_Addr l) (fun _ => Ret tt)
  | NewListener_ n a r w => bind (httptimeout.NewListener n a r w) (fun _ => Ret tt)
  | NewListenerTLS_ n a c k r w =>
      bind (httptimeout.NewListenerTLS n a c k r w) (fun _ => Ret tt)
  | Dial_ a0 r w n a =>
      bind (Transport_Dial (httptimeout.NewTransport a0 r w) n a) (fun _ => Ret tt)
  | NewListener_tcp_ a r w => bind (timeout.NewListener a r w) (fun _ => Ret tt)
  | NewListenerTLS_tcp_ a c k r w =>
      bind (timeout.NewListenerTLS a c k r w) (fun _ => Ret tt)
  | Dial_single_ a0 t n a =>
      bind (Transport_Dial (timeout.NewTransport a0 t) n a) (fun _ => Ret tt)
  end.

(** The store and the world after a sequence of operations, when all of
    them return. *)
Fixpoint invoke_all {W : Type} (h : handler W) (ms : list method) (σ : heap) (w : W)
  : option (heap * W) :=
  match ms with
  | [] => Some (σ, w)
  | m :: ms' =>
      match run h (invoke m) σ w with
      | Some f => invoke_all h ms' (hp f) (world f)
      | None => None
      end
  end.

(** ** A small network to run the packages on

    One environment among all those the theorems range over: a clock,
    descriptors, a backlog of peers waiting to be accepted, addresses
    that are taken or do not answer, and key pairs on disk. *)
Module Sim.

Record net := World {
  clock : Time;
  next_fd : nat;
  closed : list nat;
  read_deadline : list (nat * Time);
  write_deadline : list (nat * Time);
  backlog : list nat;
  in_use : list string;
  unreachable : list string;
  key_pairs : list (string * string)
}.

Definition errClosed : string := "use of closed network connection".
Definition errTimeout : string := "i/o timeout".
Definition errInUse : string := "bind: address already in use".
Definition errNoFile : string := "open: no such file or directory".

Definition here : net_Addr :=
  Some {| Addr_Network := "tcp"; Addr_String := "127.0.0.1:8080" |}.

(** The descriptor behind a listener value. *)
Fixpoint socket_of (l : net_Listener) : option nat :=
  match l with
  | sys_Listener fd => Some fd
  | tls_NewListener inner _ => socket_of inner
  | nil_Listener | ptr_Listener _ => None
  end.

Definition descriptor (c : net_Conn) : option nat :=
  match c with
  | sys_Conn fd => Some fd
  | nil_Conn | ptr_Conn _ => None
  end.

Definition is_closed (fd : nat) (w : net) : bool :=
  existsb (Nat.eqb fd) (closed w).

(** The deadline set last for [fd] has passed. *)
Definition expired (fd : nat) (dl : list (nat * Time)) (w : net) : bool :=
  match filter (fun e => e.1 = fd) dl with
  | (_, t) :: _ => bool_decide (t ≤ clock w)
  | [] => false
  end.

Definition tick (w : net) : net :=
  World (clock w + 1) (next_fd w) (closed w) (read_deadline w) (write_deadline w)
    (backlog w) (in_use w) (unreachable w) (key_pairs w).
Definition set_read (fd : nat) (t : Time) (w : net) : net :=
  World (clock w) (next_fd w) (closed w) ((fd, t) :: read_deadline w)
    (write_deadline w) (backlog w) (in_use w) (unreachable w) (key_pairs w).
Definition set_write (fd : nat) (t : Time) (w : net) : net :=
  World (clock w) (next_fd w) (closed w) (read_deadline w)
    ((fd, t) :: write_deadline w) (backlog w) (in_use w) (unreachable w) (key_pairs w).
Definition close (fd : nat) (w : net) : net :=
  World (clock w) (next_fd w) (fd :: closed w) (read_deadline w) (write_deadline w)
    (backlog w) (in_use w) (unreachable w) (key_pairs w).
Definition pop_backlog (w : net) : net :=
  World (clock w) (next_fd w) (closed w) (read_deadline w) (write_deadline w)
    (tail (backlog w)) (in_use w) (unreachable w) (key_pairs w).
Definition open_fd (w : net) : net :=
  World (clock w) (S (next_fd w)) (closed w) (read_deadline w) (write_deadline w)
    (backlog w) (in_use w) (unreachable w) (key_pairs w).
Definition bind_addr (a : string) (w : net) : net :=
  World (clock w) (S (next_fd w)) (closed w) (read_deadline w) (write_deadline w)
    (backlog w) (a :: in_use w) (unreachable w) (key_pairs w).

(** A method of a runtime connection: [dead] is the answer on a closed
    descriptor, [live] the answer and the effect on an open one; a nil
    receiver does not return. *)
Definition on_conn {R : Type} (c : net_Conn) (w : net)
    (dead : R) (live : nat -> R * net) : option (R * net) :=
  match descriptor c with
  | Some fd => if is_closed fd w then Some (dead, w) else Some (live fd)
  | None => None
  end.

Definition env : handler net := fun c w =>
  match c return option (resp c * net) with
  | time_Now => Some (clock w, tick w)
  | net_Conn_SetDeadline c t =>
      on_conn c w (Some errClosed) (fun fd => (None, set_write fd t (set_read fd t w)))
  | net_Conn_SetReadDeadline c t =>
      on_conn c w (Some errClosed) (fun fd => (None, set_read fd t w))
  | net_Conn_SetWriteDeadline c t =>
      on_conn c w (Some errClosed) (fun fd => (None, set_write fd t w))
  | net_Conn_Read c b =>
      on_conn c w (0, Some errClosed) (fun fd =>
        if expired fd (read_deadline w) w then ((0, Some errTimeout), w)
        else ((Z.of_nat (Len b), None), w))
  | net_Conn_Write c b =>
      on_conn c w (0, Some errClosed) (fun fd =>
        if expired fd (write_deadline w) w then ((0, Some errTimeout), w)
        else ((Z.of_nat (Len b), None), w))
  | net_Conn_Close c =>
      on_conn c w (Some errClosed) (fun fd => (None, close fd w))
  | net_Conn_LocalAddr c => on_conn c w here (fun _ => (here, w))
  | net_Conn_RemoteAddr c => on_conn c w here (fun _ => (here, w))
  | net_Listener_Accept l =>
      match socket_of l with
      | Some fd =>
          if is_closed fd w then Some ((nil_Conn, Some errClosed), w)
          else match backlog w with
               | peer :: _ => Some ((sys_Conn peer, None), pop_backlog w)
               | [] => None
               end
      | None => None
      end
  | net_Listener_Close l =>
      match socket_of l with
      | Some fd =>
          if is_closed fd w then Some (Some errClosed, w) else Some (None, close fd w)
      | None => None
      end
  | net_Listener_Addr l =>
      match socket_of l with
      | Some _ => Some (here, w)
      | None => None
      end
  | net_Listen network address =>
      if existsb (String.eqb address) (in_use w)
      then Some ((nil_Listener, Some errInUse), w)
      else Some ((sys_Listener (next_fd w), None), bind_addr address w)
  | net_DialTimeout network address timeout =>
      if existsb (String.eqb address) (unreachable w)
      then Some ((nil_Conn, Some errTimeout), w)
      else Some ((sys_Conn (next_fd w), None), open_fd w)
  | tls_LoadX509KeyPair certFile keyFile =>
      if existsb (fun kp => String.eqb certFile kp.1 && String.eqb keyFile kp.2)
           (key_pairs w)
      then Some (({| Certificate := [certFile]; PrivateKey := keyFile |}, None), w)
      else Some ((zero_Certificate, Some errNoFile), w)
  end.

(** A server machine: port 80 is taken, two peers are waiting, one key
    pair is installed, descriptor 3 is an open connection and
    descriptor 4 one that was closed. *)
Definition w0 : net :=
  {| clock := 1000; next_fd := 5; closed := [4%nat];
     read_deadline := []; write_deadline := [];
     backlog := [7%nat; 8%nat];
     in_use := [":80"%string];
     unreachable := ["10.0.0.1:9"%string];
     key_pairs := [("cert.pem"%string, "key.pem"%string)] |}.

(** A store with a wrapper around descriptor 3, one around the closed
    descriptor 4, and a listener on descriptor 2. *)
Definition σ0 : heap :=
  [ OConn {| Conn_Conn := sys_Conn 3; Conn_ReadTimeout := 50; Conn_WriteTimeout := 70 |};
    OConn {| Conn_Conn := sys_Conn 4; Conn_ReadTimeout := 50; Conn_WriteTimeout := 70 |};
    OListener {| Listener_Listener := sys_Listener 2;
                 Listener_ReadTimeout := 30; Listener_WriteTimeout := 40 |} ].

Definition buf : slice := {| Data := 4096; Len := 16; Cap := 16 |}.

(** A session on that machine: a peer is accepted, read from, the first
    connection is written to and its deadline moved by hand, the new
    connection is closed and read from again. *)
Definition session : list method :=
  [Accept_ 2%nat; Read_ 3%nat buf; Write_ 0%nat buf; SetDeadline_ 0%nat 5000;
   Close_ 3%nat; Read_ 3%nat buf].

Definition σ_end : list obj :=
  σ0 ++ [OConn {| Conn_Conn := sys_Conn 7; Conn_ReadTimeout := 30;
                  Conn_WriteTimeout := 40 |}].

Definition w_end : net :=
  {| clock := 1003; next_fd := 5; closed := [7%nat; 4%nat];
     read_deadline := [(3%nat, 5000); (7%nat, 1030)];
     write_deadline := [(3%nat, 5000); (3%nat, 1071)];
     backlog := [8%nat];
     in_use := [":80"%string];
     unreachable := ["10.0.0.1:9"%string];
     key_pairs := [("cert.pem"%string, "key.pem"%string)] |}.

(** A configuration that some other server of the program uses. *)
Definition shared : obj :=
  OConfig {| NextProtos := Some ["h2"%string]; Certificates := [] |}.

End Sim.

(** ** Receivers that belong to the runtime

    A connection of the runtime is a descriptor.  A listener of the
    runtime is a bound socket, or the TLS layer over a listener of the
    runtime.  Nil and the packages' own wrappers are neither. *)
Definition runtime_Conn (c : net_Conn) : bool :=
  match c with
  | sys_Conn _ => true
  | nil_Conn | ptr_Conn _ => false
  end.

Fixpoint runtime_Listener (l : net_Listener) : bool :=
  match l with
  | sys_Listener _ => true
  | tls_NewListener inner _ => runtime_Listener inner
  | nil_Listener | ptr_Listener _ => false
  end.

(** The calls that go to the runtime and to nothing else: the functions
    of [time], [net] and [crypto/tls], and the methods whose receiver
    belongs to the runtime. *)
Definition runtime_call (c : call) : bool :=
  match c with
  | time_Now
  | net_Listen _ _
  | net_DialTimeout _ _ _
  | tls_LoadX509KeyPair _ _ => true
  | net_Conn_SetDeadline c _
  | net_Conn_SetReadDeadline c _
  | net_Conn_SetWriteDeadline c _
  | net_Conn_Read c _
  | net_Conn_Write c _
  | net_Conn_Close c
  | net_Conn_LocalAddr c
  | net_Conn_RemoteAddr c => runtime_Conn c
  | net_Listener_Accept l
  | net_Listener_Close l
  | net_Listener_Addr l => runtime_Listener l
  end.

(** ** A network that is down

    An environment in which every call to the runtime returns at once,
    and every call that can fail does.  A method called on nil, or on a
    wrapper, has no answer here. *)
Definition down : string := "network is down".

Definition refusal (c : call) : resp c :=
  match c return resp c with
  | time_Now => 0
  | net_Conn_SetDeadline _ _
  | net_Conn_SetReadDeadline _ _
  | net_Conn_SetWriteDeadline _ _
  | net_Conn_Close _
  | net_Listener_Close _ => Some down
  | net_Conn_Read _ _
  | net_Conn_Write _ _ => (0, Some down)
  | net_Conn_LocalAddr _
  | net_Conn_RemoteAddr _
  | net_Listener_Addr _ => None
  | net_Listener_Accept _
  | net_DialTimeout _ _ _ => (nil_Conn, Some down)
  | net_Listen _ _ => (nil_Listener, Some down)
  | tls_LoadX509KeyPair _ _ => (zero_Certificate, Some down)
  end.

Definition unplugged : handler unit := fun c _ =>
  if runtime_call c then Some (refusal c, tt) else None.

(** ** Input and output under a deadline

    Used to state how the operations compose: what a read or a write of
    the runtime connection [conn] is when it is preceded by a deadline
    set [d] after the current time. *)
Definition bounded_read {W : Type} (h : handler W) (conn : net_Conn) (d : Duration)
    (b : slice) (σ : heap) (w : W) : option (final (Z * error) W) :=
  match h time_Now w with
  | Some (now, w1) =>
      let set := net_Conn_SetReadDeadline conn (Time_Add now d) in
      match h set w1 with
      | Some (Some e, w2) => Some (Final (0, Some e) σ w2 [time_Now; set])
      | Some (None, w2) =>
          preceded_by [time_Now; set] (underlying h (net_Conn_Read conn b) σ w2)
      | None => None
      end
  | None => None
  end.

Definition bounded_write {W : Type} (h : handler W) (conn : net_Conn) (d : Duration)
    (b : slice) (σ : heap) (w : W) : option (final (Z * error) W) :=
  match h time_Now w with
  | Some (now, w1) =>
      let set := net_Conn_SetWriteDeadline conn (Time_Add now d) in
      match h set w1 with
      | Some (Some e, w2) => Some (Final (0, Some e) σ w2 [time_Now; set])
      | Some (None, w2) =>
          preceded_by [time_Now; set] (underlying h (net_Conn_Write conn b) σ w2)
      | None => None
      end
  | None => None
  end.

(** In the store [σ] and in every store that extends it, in every world,
    a [Read] through the pointer [p] is a read of [conn] bounded by
    [readTimeout], and a [Write] a write of [conn] bounded by
    [writeTimeout]. *)
Definition governs {W : Type} (h : handler W) (p : ptr) (conn : net_Conn)
    (readTimeout writeTimeout : Duration) (σ : heap) : Prop :=
  forall (ρ : heap) (b : slice) (u : W),
    σ `prefix_of` ρ ->
    run h (Conn_Read p b) ρ u = bounded_read h conn readTimeout b ρ u /\
    run h (Conn_Write p b) ρ u = bounded_write h conn writeTimeout b ρ u.

(** In the store [σ] and in every store that extends it, an [Accept]
    through the pointer [l] is one [Accept] of the runtime listener
    [ln], and the connection it returns on success is governed by the
    two timeouts. *)
Definition accepts_with {W : Type} (h : handler W) (l : ptr) (ln : net_Listener)
    (readTimeout writeTimeout : Duration) (σ : heap) : Prop :=
  forall (τ : heap) (v v1 : W) (c : net_Conn),
    σ `prefix_of` τ ->
    h (net_Listener_Accept ln) v = Some ((c, None), v1) ->
    exists g p,
      run h (Listener_Accept l) τ v = Some g /\
      ret g = (ptr_Conn p, None) /\
      world g = v1 /\
      trace g = [net_Listener_Accept ln] /\
      governs h p c readTimeout writeTimeout (hp g).

(** * Proofs *)

(** ** The store *)

Lemma lookup_fresh (σ : heap) (o : obj) : (σ ++ [o]) !! length σ = Some o.
Proof. by apply list_lookup_middle. Qed.

Lemma insert_fresh (σ : heap) (o o' : obj) : <[length σ := o']> (σ ++ [o]) = σ ++ [o'].
Proof.
  rewrite insert_app_r_alt by lia.
  by rewrite Nat.sub_diag.
Qed.

Lemma lookup_kept (σ τ : heap) (p : ptr) (o : obj) :
  σ !! p = Some o -> (σ ++ τ) !! p = Some o.
Proof. intros Hp. by apply lookup_app_l_Some. Qed.

(** Reads and writes of the object allocated last. *)
Ltac fresh_object :=
  repeat (first [rewrite lookup_fresh | rewrite insert_fresh]; simpl).

(** ** Running a sequence *)

Lemma run_bind {A B W : Type} (h : handler W) (m : Prog A) (f : A -> Prog B)
    (σ : heap) (w : W) :
  run h (bind m f) σ w =
  match run h m σ w with
  | Some r =>
      match run h (f (ret r)) (hp r) (world r) with
      | Some r' => Some (Final (ret r') (hp r') (world r') (trace r ++ trace r'))
      | None => None
      end
  | None => None
  end.
Proof.
  revert σ w.
  induction m as [a | | c k IH | o k IH | p k IH | p o k IH]; intros σ w; simpl.
  - by destruct (run h (f a) σ w) as [[]|].
  - done.
  - destruct (h c w) as [[r w']|]; [|done].
    rewrite IH.
    destruct (run h (k r) σ w') as [r1|]; [|done]; simpl.
    by destruct (run h (f (ret r1)) (hp r1) (world r1)).
  - apply IH.
  - destruct (σ !! p); [apply IH | done].
  - destruct (σ !! p); [apply IH | done].
Qed.

(** A runtime call made on its own. *)
Lemma run_call {W : Type} (h : handler W) (c : call) (σ : heap) (w : W) :
  run h (call_ c) σ w =
  match h c w with
  | Some (r, w') => Some (Final r σ w' [c])
  | None => None
  end.
Proof. simpl. by destruct (h c w) as [[r w']|]. Qed.

(** ** Read and Write *)

Section Conn_methods.

Context {W : Type} (h : handler W).
Variables (σ : heap) (p : ptr) (c : Conn).
Hypothesis Hp : σ !! p = Some (OConn c).

Lemma Conn_Read_run (b : slice) (w : W) :
  run h (Conn_Read p b) σ w =
  match h time_Now w with
  | Some (now, w1) =>
      let set := net_Conn_SetReadDeadline (Conn_Conn c)
                   (Time_Add now (Conn_ReadTimeout c)) in
      match h set w1 with
      | Some (Some e, w2) => Some (Final (0, Some e) σ w2 [time_Now; set])
      | Some (None, w2) =>
          match h (net_Conn_Read (Conn_Conn c) b) w2 with
          | Some (r, w3) =>
              Some (Final r σ w3 [time_Now; set; net_Conn_Read (Conn_Conn c) b])
          | None => None
          end
      | None => None
      end
  | None => None
  end.
Proof.
  unfold Conn_Read; simpl. rewrite Hp; simpl.
  destruct (h time_Now w) as [[now w1]|]; [|done].
  destruct (h (net_Conn_SetReadDeadline _ _) w1) as [[[e|] w2]|]; [done| |done].
  simpl. rewrite Hp; simpl.
  by destruct (h (net_Conn_Read _ _) w2) as [[r w3]|].
Qed.

Lemma Conn_Write_run (b : slice) (w : W) :
  run h (Conn_Write p b) σ w =
  match h time_Now w with
  | Some (now, w1) =>
      let set := net_Conn_SetWriteDeadline (Conn_Conn c)
                   (Time_Add now (Conn_WriteTimeout c)) in
      match h set w1 with
      | Some (Some e, w2) => Some (Final (0, Some e) σ w2 [time_Now; set])
      | Some (None, w2) =>
          match h (net_Conn_Write (Conn_Conn c) b) w2 with
          | Some (r, w3) =>
              Some (Final r σ w3 [time_Now; set; net_Conn_Write (Conn_Conn c) b])
          | None => None
          end
      | None => None
      end
  | None => None
  end.
Proof.
  unfold Conn_Write; simpl. rewrite Hp; simpl.
  destruct (h time_Now w) as [[now w1]|]; [|done].
  destruct (h (net_Conn_SetWriteDeadline _ _) w1) as [[[e|] w2]|]; [done| |done].
  simpl. rewrite Hp; simpl.
  by destruct (h (net_Conn_Write _ _) w2) as [[r w3]|].
Qed.

End Conn_methods.

(** C1. [Read] asks for the time, then sets the read deadline of the
    embedded connection to that time plus [ReadTimeout].  When setting
    the deadline fails with [e], [Read] returns [(0, e)] and has made
    these two calls only: the embedded [Read] is not called.  When it
    succeeds, the outcome of [Read] is the outcome of the embedded [Read]
    on the same buffer, unchanged.  [Write] is the same with
    [WriteTimeout], the write deadline and the embedded [Write]. *)
Theorem Conn_Read_Write_deadline {W : Type} (h : handler W) (σ : heap) (p : ptr)
    (c : Conn) (b : slice) (w w1 : W) (now : Time) :
  σ !! p = Some (OConn c) ->
  h time_Now w = Some (now, w1) ->
  (forall (err : error) (w2 : W),
     let set := net_Conn_SetReadDeadline (Conn_Conn c)
                  (Time_Add now (Conn_ReadTimeout c)) in
     h set w1 = Some (err, w2) ->
     match err with
     | Some e =>
         run h (Conn_Read p b) σ w = Some (Final (0, Some e) σ w2 [time_Now; set])
     | None =>
         run h (Conn_Read p b) σ w =
         preceded_by [time_Now; set] (underlying h (net_Conn_Read (Conn_Conn c) b) σ w2)
     end) /\
  (forall (err : error) (w2 : W),
     let set := net_Conn_SetWriteDeadline (Conn_Conn c)
                  (Time_Add now (Conn_WriteTimeout c)) in
     h set w1 = Some (err, w2) ->
     match err with
     | Some e =>
         run h (Conn_Write p b) σ w = Some (Final (0, Some e) σ w2 [time_Now; set])
     | None =>
         run h (Conn_Write p b) σ w =
         preceded_by [time_Now; set] (underlying h (net_Conn_Write (Conn_Conn c) b) σ w2)
     end).
Proof.
  intros Hp Hnow; split; intros err w2 set Hset.
  - rewrite (Conn_Read_run h σ p c Hp), Hnow; simpl; fold set; rewrite Hset.
    destruct err as [e|]; [done|].
    unfold underlying. by destruct (h (net_Conn_Read _ _) w2) as [[r w3]|].
  - rewrite (Conn_Write_run h σ p c Hp), Hnow; simpl; fold set; rewrite Hset.
    destruct err as [e|]; [done|].
    unfold underlying. by destruct (h (net_Conn_Write _ _) w2) as [[r w3]|].
Qed.

(** On the simulated machine: a read through the wrapper of the closed
    descriptor 4 stops at the deadline, and a write through the wrapper
    of descriptor 3 is the write of the descriptor, with the write
    deadline at 1000 + 70. *)
Lemma Conn_Read_Write_deadline_witness :
  run Sim.env (Conn_Read 1%nat Sim.buf) Sim.σ0 Sim.w0 =
    Some (Final (0, Some Sim.errClosed) Sim.σ0 (Sim.tick Sim.w0)
            [time_Now; net_Conn_SetReadDeadline (sys_Conn 4) 1050]) /\
  run Sim.env (Conn_Write 0%nat Sim.buf) Sim.σ0 Sim.w0 =
    preceded_by [time_Now; net_Conn_SetWriteDeadline (sys_Conn 3) 1070]
      (underlying Sim.env (net_Conn_Write (sys_Conn 3) Sim.buf) Sim.σ0
         (Sim.set_write 3 1070 (Sim.tick Sim.w0))).
Proof.
  split.
  - exact (proj1 (Conn_Read_Write_deadline Sim.env Sim.σ0 1%nat _ Sim.buf Sim.w0
                    (Sim.tick Sim.w0) 1000 eq_refl eq_refl)
             (Some Sim.errClosed) (Sim.tick Sim.w0) eq_refl).
  - exact (proj2 (Conn_Read_Write_deadline Sim.env Sim.σ0 0%nat _ Sim.buf Sim.w0
                    (Sim.tick Sim.w0) 1000 eq_refl eq_refl)
             None (Sim.set_write 3 1070 (Sim.tick Sim.w0)) eq_refl).
Defined.

(** C6. The other methods of a [Conn] are those of the embedded
    connection: [Close], [LocalAddr], [RemoteAddr] (and the three
    deadline setters) give the answer of the same call on the embedded
    connection, leave the store as it was and the world as that call
    left it, and make no other call. *)
Theorem Conn_passthrough {W : Type} (h : handler W) (σ : heap) (p : ptr) (c : Conn)
    (w : W) :
  σ !! p = Some (OConn c) ->
  run h (Conn_Close p) σ w = underlying h (net_Conn_Close (Conn_Conn c)) σ w /\
  run h (Conn_LocalAddr p) σ w = underlying h (net_Conn_LocalAddr (Conn_Conn c)) σ w /\
  run h (Conn_RemoteAddr p) σ w = underlying h (net_Conn_RemoteAddr (Conn_Conn c)) σ w /\
  (forall t : Time,
     run h (Conn_SetDeadline p t) σ w =
       underlying h (net_Conn_SetDeadline (Conn_Conn c) t) σ w /\
     run h (Conn_SetReadDeadline p t) σ w =
       underlying h (net_Conn_SetReadDeadline (Conn_Conn c) t) σ w /\
     run h (Conn_SetWriteDeadline p t) σ w =
       underlying h (net_Conn_SetWriteDeadline (Conn_Conn c) t) σ w).
Proof.
  intros Hp.
  repeat first [split | intros t];
    unfold underlying; simpl; rewrite Hp; simpl;
    match goal with |- context [h ?k w] => by destruct (h k w) as [[r w']|] end.
Qed.

(** On the simulated machine, closing the wrapper of descriptor 3 closes
    descriptor 3, and the address queries answer as the descriptor does. *)
Lemma Conn_passthrough_witness :
  run Sim.env (Conn_Close 0%nat) Sim.σ0 Sim.w0 =
    Some (Final None Sim.σ0 (Sim.close 3 Sim.w0) [net_Conn_Close (sys_Conn 3)]) /\
  run Sim.env (Conn_LocalAddr 0%nat) Sim.σ0 Sim.w0 =
    Some (Final Sim.here Sim.σ0 Sim.w0 [net_Conn_LocalAddr (sys_Conn 3)]) /\
  run Sim.env (Conn_RemoteAddr 0%nat) Sim.σ0 Sim.w0 =
    Some (Final Sim.here Sim.σ0 Sim.w0 [net_Conn_RemoteAddr (sys_Conn 3)]).
Proof.
  pose proof (Conn_passthrough Sim.env Sim.σ0 0%nat _ Sim.w0 eq_refl)
    as (HC & HL & HR & _).
  exact (conj HC (conj HL HR)).
Defined.

(** ** Accept, Dial and the listeners *)

Section Constructors.

Context {W : Type} (h : handler W).

Lemma Listener_Accept_run (σ : heap) (l : ptr) (l0 : Listener) (w : W) :
  σ !! l = Some (OListener l0) ->
  run h (Listener_Accept l) σ w =
  match h (net_Listener_Accept (Listener_Listener l0)) w with
  | Some ((_, Some e), w1) =>
      Some (Final (nil_Conn, Some e) σ w1
              [net_Listener_Accept (Listener_Listener l0)])
  | Some ((c, None), w1) =>
      Some (Final (ptr_Conn (length σ), None)
              (σ ++ [OConn {| Conn_Conn := c;
                              Conn_ReadTimeout := Listener_ReadTimeout l0;
                              Conn_WriteTimeout := Listener_WriteTimeout l0 |}])
              w1 [net_Listener_Accept (Listener_Listener l0)])
  | None => None
  end.
Proof.
  intros Hl. unfold Listener_Accept; simpl. rewrite Hl; simpl.
  destruct (h (net_Listener_Accept _) w) as [[[c [e|]] w1]|]; simpl; [done| |done].
  by rewrite Hl.
Qed.

Lemma Dial_run (a0 : string) (readTimeout writeTimeout : Duration)
    (network addr : string) (σ : heap) (w : W) :
  run h (Transport_Dial (httptimeout.NewTransport a0 readTimeout writeTimeout)
           network addr) σ w =
  match h (net_DialTimeout network addr readTimeout) w with
  | Some ((_, Some e), w1) =>
      Some (Final (nil_Conn, Some e) σ w1 [net_DialTimeout network addr readTimeout])
  | Some ((conn, None), w1) =>
      Some (Final (ptr_Conn (length σ), None)
              (σ ++ [OConn {| Conn_Conn := conn;
                              Conn_ReadTimeout := readTimeout;
                              Conn_WriteTimeout := writeTimeout |}])
              w1 [net_DialTimeout network addr readTimeout])
  | None => None
  end.
Proof.
  unfold Transport_Dial; simpl.
  by destruct (h (net_DialTimeout _ _ _) w) as [[[c [e|]] w1]|].
Qed.

Lemma NewListener_run (network addr : string) (readTimeout writeTimeout : Duration)
    (σ : heap) (w : W) :
  run h (httptimeout.NewListener network addr readTimeout writeTimeout) σ w =
  match h (net_Listen network addr) w with
  | Some ((_, Some e), w1) =>
      Some (Final (nil_Listener, Some e) σ w1 [net_Listen network addr])
  | Some ((conn, None), w1) =>
      Some (Final (ptr_Listener (length σ), None)
              (σ ++ [OListener {| Listener_Listener := conn;
                                  Listener_ReadTimeout := readTimeout;
                                  Listener_WriteTimeout := writeTimeout |}])
              w1 [net_Listen network addr])
  | None => None
  end.
Proof.
  unfold httptimeout.NewListener; simpl.
  by destruct (h (net_Listen _ _) w) as [[[c [e|]] w1]|].
Qed.

Lemma NewListenerTLS_run (network addr certFile keyFile : string)
    (readTimeout writeTimeout : Duration) (σ : heap) (w : W) :
  run h (httptimeout.NewListenerTLS network addr certFile keyFile
           readTimeout writeTimeout) σ w =
  match h (tls_LoadX509KeyPair certFile keyFile) w with
  | Some ((cert, Some e), w1) =>
      Some (Final (nil_Listener, Some e) (σ ++ [OConfig (built_Config cert)]) w1
              [tls_LoadX509KeyPair certFile keyFile])
  | Some ((cert, None), w1) =>
      match h (net_Listen network addr) w1 with
      | Some ((_, Some e), w2) =>
          Some (Final (nil_Listener, Some e) (σ ++ [OConfig (built_Config cert)]) w2
                  [tls_LoadX509KeyPair certFile keyFile; net_Listen network addr])
      | Some ((conn, None), w2) =>
          Some (Final (ptr_Listener (S (length σ)), None)
                  (σ ++ [OConfig (built_Config cert);
                         OListener {| Listener_Listener := tls_NewListener conn (length σ);
                                      Listener_ReadTimeout := readTimeout;
                                      Listener_WriteTimeout := writeTimeout |}])
                  w2 [tls_LoadX509KeyPair certFile keyFile; net_Listen network addr])
      | None => None
      end
  | None => None
  end.
Proof.
  unfold httptimeout.NewListenerTLS, default_NextProtos; simpl.
  fresh_object.
  destruct (h (tls_LoadX509KeyPair _ _) w) as [[[cert err] w1]|]; [|done]; simpl.
  fresh_object.
  destruct err as [e|]; simpl; [done|].
  destruct (h (net_Listen _ _) w1) as [[[conn [e|]] w2]|]; simpl; [done| |done].
  by rewrite length_app, Nat.add_1_r, <- app_assoc.
Qed.

End Constructors.

(** The package [timeout] is the package [httptimeout] with one timeout
    for both directions and the network fixed to tcp. *)
Lemma timeout_NewTransport (addr : string) (t : Duration) :
  timeout.NewTransport addr t = httptimeout.NewTransport addr t t.
Proof. reflexivity. Qed.

Lemma timeout_NewListener (addr : string) (readTimeout writeTimeout : Duration) :
  timeout.NewListener addr readTimeout writeTimeout =
  httptimeout.NewListener "tcp" addr readTimeout writeTimeout.
Proof. reflexivity. Qed.

Lemma timeout_NewListenerTLS (addr certFile keyFile : string)
    (readTimeout writeTimeout : Duration) :
  timeout.NewListenerTLS addr certFile keyFile readTimeout writeTimeout =
  httptimeout.NewListenerTLS "tcp" addr certFile keyFile readTimeout writeTimeout.
Proof. reflexivity. Qed.

(** C2. [Accept] calls [Accept] on the embedded listener, once.  When
    that returns a connection [c] and no error, [Accept] returns a
    pointer to a [Conn] that was not in the store before and that holds
    [c] and the two timeouts of the listener; every object that was in
    the store, among them the connections accepted before, is as it
    was.  When the embedded listener belongs to the runtime, that [Conn]
    is the one object added to the store.  When the embedded [Accept]
    returns an error, [Accept] returns nil and that error, and the store
    is as it was: no connection object is made. *)
Theorem Listener_Accept_wraps {W : Type} (h : handler W) (σ : heap) (l : ptr)
    (l0 : Listener) (w w1 : W) (c : net_Conn) (err : error) :
  σ !! l = Some (OListener l0) ->
  h (net_Listener_Accept (Listener_Listener l0)) w = Some ((c, err), w1) ->
  match err with
  | None =>
      let wrapped := OConn {| Conn_Conn := c;
                              Conn_ReadTimeout := Listener_ReadTimeout l0;
                              Conn_WriteTimeout := Listener_WriteTimeout l0 |} in
      exists f p,
        run h (Listener_Accept l) σ w = Some f /\
        ret f = (ptr_Conn p, None) /\
        world f = w1 /\
        trace f = [net_Listener_Accept (Listener_Listener l0)] /\
        σ !! p = None /\
        hp f !! p = Some wrapped /\
        (forall q o, σ !! q = Some o -> hp f !! q = Some o) /\
        (runtime_Listener (Listener_Listener l0) = true ->
         hp f = σ ++ [wrapped] /\ p = length σ)
  | Some e =>
      run h (Listener_Accept l) σ w =
      Some (Final (nil_Conn, Some e) σ w1 [net_Listener_Accept (Listener_Listener l0)])
  end.
Proof.
  intros Hl Hacc.
  rewrite (Listener_Accept_run h σ l l0 w Hl), Hacc.
  destruct err as [e|]; [done|].
  intros wrapped. eexists _, _. repeat (split; [reflexivity|]). simpl.
  split; [by apply lookup_ge_None|].
  split; [apply lookup_fresh|].
  split; [|done].
  intros q o Hq. by apply lookup_kept.
Qed.

(** On the simulated machine the listener on descriptor 2, with timeouts
    30 and 40, accepts the peer 7; and when its socket has been closed
    the accept fails and the store is left alone. *)
Lemma Listener_Accept_wraps_witness :
  (exists f p,
     run Sim.env (Listener_Accept 2%nat) Sim.σ0 Sim.w0 = Some f /\
     ret f = (ptr_Conn p, None) /\
     world f = Sim.pop_backlog Sim.w0 /\
     trace f = [net_Listener_Accept (sys_Listener 2)] /\
     hp f = Sim.σ0 ++ [OConn {| Conn_Conn := sys_Conn 7;
                                Conn_ReadTimeout := 30;
                                Conn_WriteTimeout := 40 |}] /\
     p = 3%nat) /\
  run Sim.env (Listener_Accept 2%nat) Sim.σ0 (Sim.close 2 Sim.w0) =
    Some (Final (nil_Conn, Some Sim.errClosed) Sim.σ0 (Sim.close 2 Sim.w0)
            [net_Listener_Accept (sys_Listener 2)]).
Proof.
  split.
  - destruct (Listener_Accept_wraps Sim.env Sim.σ0 2%nat _ Sim.w0
                (Sim.pop_backlog Sim.w0) (sys_Conn 7) None eq_refl eq_refl)
      as (f & p & Hrun & Hret & Hworld & Htrace & _ & _ & _ & Hexact).
    exists f, p.
    exact (conj Hrun (conj Hret (conj Hworld (conj Htrace (Hexact eq_refl))))).
  - exact (Listener_Accept_wraps Sim.env Sim.σ0 2%nat _ (Sim.close 2 Sim.w0)
             (Sim.close 2 Sim.w0) nil_Conn (Some Sim.errClosed) eq_refl eq_refl).
Defined.

(** C3. The transport of [timeout.NewTransport(addr, timeout)] has a
    [Dial] function.  Called with a network and an address, it calls
    [net.DialTimeout] with them and [timeout], once.  When the connect
    succeeds with [conn], it returns a pointer to a new [Conn] holding
    [conn] with [timeout] as read and as write timeout; when the connect
    fails, it returns nil and the error of the connect and allocates
    nothing.  [httptimeout.NewTransport] given the same timeout twice is
    the same transport. *)
Theorem NewTransport_dial {W : Type} (h : handler W) (σ : heap) (w w1 : W)
    (addr0 : string) (t : Duration) (network addr : string)
    (conn : net_Conn) (err : error) :
  h (net_DialTimeout network addr t) w = Some ((conn, err), w1) ->
  (exists dial, Dial (timeout.NewTransport addr0 t) = Some dial /\
     match err with
     | None =>
         run h (dial network addr) σ w =
         Some (Final (ptr_Conn (length σ), None)
                 (σ ++ [OConn {| Conn_Conn := conn;
                                 Conn_ReadTimeout := t;
                                 Conn_WriteTimeout := t |}])
                 w1 [net_DialTimeout network addr t])
     | Some e =>
         run h (dial network addr) σ w =
         Some (Final (nil_Conn, Some e) σ w1 [net_DialTimeout network addr t])
     end) /\
  httptimeout.NewTransport addr0 t t = timeout.NewTransport addr0 t.
Proof.
  intros Hdial. split; [|done].
  eexists; split; [reflexivity|].
  pose proof (Dial_run h addr0 t t network addr σ w) as Hrun.
  rewrite Hdial in Hrun.
  destruct err; exact Hrun.
Qed.

(** On the simulated machine: a dial that gets descriptor 5, and a dial
    to the address that does not answer. *)
Lemma NewTransport_dial_witness :
  (exists dial, Dial (timeout.NewTransport "example.org:80" 90) = Some dial /\
     run Sim.env (dial "tcp"%string "10.0.0.2:80"%string) Sim.σ0 Sim.w0 =
     Some (Final (ptr_Conn 3, None)
             (Sim.σ0 ++ [OConn {| Conn_Conn := sys_Conn 5;
                                  Conn_ReadTimeout := 90;
                                  Conn_WriteTimeout := 90 |}])
             (Sim.open_fd Sim.w0) [net_DialTimeout "tcp" "10.0.0.2:80" 90])) /\
  (exists dial, Dial (timeout.NewTransport "example.org:80" 90) = Some dial /\
     run Sim.env (dial "tcp"%string "10.0.0.1:9"%string) Sim.σ0 Sim.w0 =
     Some (Final (nil_Conn, Some Sim.errTimeout) Sim.σ0 Sim.w0
             [net_DialTimeout "tcp" "10.0.0.1:9" 90])).
Proof.
  split.
  - exact (proj1 (NewTransport_dial Sim.env Sim.σ0 Sim.w0 (Sim.open_fd Sim.w0)
                    "example.org:80" 90 "tcp" "10.0.0.2:80" (sys_Conn 5) None eq_refl)).
  - exact (proj1 (NewTransport_dial Sim.env Sim.σ0 Sim.w0 Sim.w0
                    "example.org:80" 90 "tcp" "10.0.0.1:9" nil_Conn
                    (Some Sim.errTimeout) eq_refl)).
Defined.

(** C8. [httptimeout.NewListener(network, addr, readTimeout,
    writeTimeout)] calls [net.Listen(network, addr)], once.  When the
    bind succeeds with the listener [ln], it returns a pointer to a new
    [Listener] holding [ln] and the two timeouts; when the bind fails, it
    returns nil and the error of the bind and allocates nothing.
    [timeout.NewListener] is the same function on the tcp network. *)
Theorem NewListener_binds_and_wraps {W : Type} (h : handler W) (σ : heap) (w w1 : W)
    (network addr : string) (readTimeout writeTimeout : Duration)
    (ln : net_Listener) (err : error) :
  h (net_Listen network addr) w = Some ((ln, err), w1) ->
  match err with
  | None =>
      run h (httptimeout.NewListener network addr readTimeout writeTimeout) σ w =
      Some (Final (ptr_Listener (length σ), None)
              (σ ++ [OListener {| Listener_Listener := ln;
                                  Listener_ReadTimeout := readTimeout;
                                  Listener_WriteTimeout := writeTimeout |}])
              w1 [net_Listen network addr])
  | Some e =>
      run h (httptimeout.NewListener network addr readTimeout writeTimeout) σ w =
      Some (Final (nil_Listener, Some e) σ w1 [net_Listen network addr])
  end /\
  timeout.NewListener addr readTimeout writeTimeout =
  httptimeout.NewListener "tcp" addr readTimeout writeTimeout.
Proof.
  intros Hbind. split; [|done].
  rewrite NewListener_run, Hbind.
  by destruct err.
Qed.

(** On the simulated machine: a bind of the free port 8080, which gets
    descriptor 5, and a bind of port 80, which is taken. *)
Lemma NewListener_binds_and_wraps_witness :
  run Sim.env (httptimeout.NewListener "tcp" ":8080" 30 40) Sim.σ0 Sim.w0 =
    Some (Final (ptr_Listener 3, None)
            (Sim.σ0 ++ [OListener {| Listener_Listener := sys_Listener 5;
                                     Listener_ReadTimeout := 30;
                                     Listener_WriteTimeout := 40 |}])
            (Sim.bind_addr ":8080" Sim.w0) [net_Listen "tcp" ":8080"]) /\
  run Sim.env (httptimeout.NewListener "tcp" ":80" 30 40) Sim.σ0 Sim.w0 =
    Some (Final (nil_Listener, Some Sim.errInUse) Sim.σ0 Sim.w0 [net_Listen "tcp" ":80"]).
Proof.
  split.
  - exact (proj1 (NewListener_binds_and_wraps Sim.env Sim.σ0 Sim.w0
                    (Sim.bind_addr ":8080" Sim.w0) "tcp" ":8080" 30 40
                    (sys_Listener 5) None eq_refl)).
  - exact (proj1 (NewListener_binds_and_wraps Sim.env Sim.σ0 Sim.w0 Sim.w0
                    "tcp" ":80" 30 40 nil_Listener (Some Sim.errInUse) eq_refl)).
Defined.

(** C9. The address given to [NewTransport] is not used: two transports
    built with the same timeouts and different addresses are equal, and
    so are the outcomes of their [Dial] functions on every network and
    address, in every environment.  This holds in both packages. *)
Theorem NewTransport_ignores_addr {W : Type} (h : handler W) (a1 a2 : string)
    (t readTimeout writeTimeout : Duration) :
  timeout.NewTransport a1 t = timeout.NewTransport a2 t /\
  httptimeout.NewTransport a1 readTimeout writeTimeout =
    httptimeout.NewTransport a2 readTimeout writeTimeout /\
  (forall (network addr : string) (σ : heap) (w : W),
     run h (Transport_Dial (timeout.NewTransport a1 t) network addr) σ w =
     run h (Transport_Dial (timeout.NewTransport a2 t) network addr) σ w /\
     run h (Transport_Dial (httptimeout.NewTransport a1 readTimeout writeTimeout)
              network addr) σ w =
     run h (Transport_Dial (httptimeout.NewTransport a2 readTimeout writeTimeout)
              network addr) σ w).
Proof. repeat split. Qed.

(** C10. In [httptimeout], the [Dial] function of
    [NewTransport(addr, readTimeout, writeTimeout)] makes one call,
    [net.DialTimeout] with [readTimeout]: every connect it makes is
    bounded by [readTimeout].  When the connect succeeds, the new [Conn]
    has [readTimeout] as read timeout and [writeTimeout] as write
    timeout. *)
Theorem NewTransport_connect_readTimeout {W : Type} (h : handler W) (σ : heap)
    (w w1 : W) (addr0 : string) (readTimeout writeTimeout : Duration)
    (network addr : string) (conn : net_Conn) (err : error) :
  h (net_DialTimeout network addr readTimeout) w = Some ((conn, err), w1) ->
  exists f,
    run h (Transport_Dial (httptimeout.NewTransport addr0 readTimeout writeTimeout)
             network addr) σ w = Some f /\
    trace f = [net_DialTimeout network addr readTimeout] /\
    (forall (n a : string) (d : Duration),
       net_DialTimeout n a d ∈ trace f -> d = readTimeout) /\
    (err = None ->
     ret f = (ptr_Conn (length σ), None) /\
     hp f = σ ++ [OConn {| Conn_Conn := conn;
                           Conn_ReadTimeout := readTimeout;
                           Conn_WriteTimeout := writeTimeout |}]).
Proof.
  intros Hdial. rewrite Dial_run, Hdial.
  destruct err as [e|]; eexists; (split; [reflexivity|]); simpl;
    (split; [reflexivity|]); (split; [|done]);
    intros n a d Hin; apply list_elem_of_singleton in Hin; congruence.
Qed.

(** On the simulated machine, with a read timeout of 20 and a write
    timeout of 90: the connect is made with 20. *)
Lemma NewTransport_connect_readTimeout_witness :
  exists f,
    run Sim.env (Transport_Dial (httptimeout.NewTransport "example.org:80" 20 90)
                   "tcp" "10.0.0.2:80") Sim.σ0 Sim.w0 = Some f /\
    trace f = [net_DialTimeout "tcp" "10.0.0.2:80" 20] /\
    ret f = (ptr_Conn 3, None) /\
    hp f = Sim.σ0 ++ [OConn {| Conn_Conn := sys_Conn 5;
                               Conn_ReadTimeout := 20;
                               Conn_WriteTimeout := 90 |}].
Proof.
  destruct (NewTransport_connect_readTimeout Sim.env Sim.σ0 Sim.w0 (Sim.open_fd Sim.w0)
              "example.org:80" 20 90 "tcp" "10.0.0.2:80" (sys_Conn 5) None eq_refl)
    as (f & Hrun & Htrace & _ & Hconn).
  exists f. exact (conj Hrun (conj Htrace (Hconn eq_refl))).
Defined.

(** ** The TLS listener *)

(** C4. [NewListenerTLS] loads the key pair first.  When that fails with
    [e], it returns nil and [e]; the only call made is
    [tls.LoadX509KeyPair], so that [net.Listen] is not called and no
    socket is bound, and the only object allocated is the local
    configuration: there is no [Listener].  When the key pair loads and
    the bind fails with [e], it returns nil and [e], and again allocates
    no [Listener].  [timeout.NewListenerTLS] is the same function on the
    tcp network. *)
Theorem NewListenerTLS_failure {W : Type} (h : handler W) (σ : heap) (w w1 : W)
    (network addr certFile keyFile : string) (readTimeout writeTimeout : Duration)
    (cert : tls_Certificate) (err : error) :
  h (tls_LoadX509KeyPair certFile keyFile) w = Some ((cert, err), w1) ->
  match err with
  | Some e =>
      run h (httptimeout.NewListenerTLS network addr certFile keyFile
               readTimeout writeTimeout) σ w =
      Some (Final (nil_Listener, Some e) (σ ++ [OConfig (built_Config cert)]) w1
              [tls_LoadX509KeyPair certFile keyFile])
  | None =>
      forall (ln : net_Listener) (e : string) (w2 : W),
        h (net_Listen network addr) w1 = Some ((ln, Some e), w2) ->
        run h (httptimeout.NewListenerTLS network addr certFile keyFile
                 readTimeout writeTimeout) σ w =
        Some (Final (nil_Listener, Some e) (σ ++ [OConfig (built_Config cert)]) w2
                [tls_LoadX509KeyPair certFile keyFile; net_Listen network addr])
  end /\
  timeout.NewListenerTLS addr certFile keyFile readTimeout writeTimeout =
  httptimeout.NewListenerTLS "tcp" addr certFile keyFile readTimeout writeTimeout.
Proof.
  intros Hload. split; [|done].
  rewrite NewListenerTLS_run, Hload.
  destruct err as [e|]; [done|].
  intros ln e w2 Hbind. by rewrite Hbind.
Qed.

(** On the simulated machine: a certificate file that is not there, and
    a key pair that loads followed by a bind of port 80, which is taken. *)
Lemma NewListenerTLS_failure_witness :
  run Sim.env (httptimeout.NewListenerTLS "tcp" ":443" "missing.pem" "key.pem" 30 40)
      Sim.σ0 Sim.w0 =
    Some (Final (nil_Listener, Some Sim.errNoFile)
            (Sim.σ0 ++ [OConfig (built_Config zero_Certificate)]) Sim.w0
            [tls_LoadX509KeyPair "missing.pem" "key.pem"]) /\
  run Sim.env (httptimeout.NewListenerTLS "tcp" ":80" "cert.pem" "key.pem" 30 40)
      Sim.σ0 Sim.w0 =
    Some (Final (nil_Listener, Some Sim.errInUse)
            (Sim.σ0 ++ [OConfig (built_Config
                                   {| Certificate := ["cert.pem"%string];
                                      PrivateKey := "key.pem" |})])
            Sim.w0
            [tls_LoadX509KeyPair "cert.pem" "key.pem"; net_Listen "tcp" ":80"]).
Proof.
  split.
  - exact (proj1 (NewListenerTLS_failure Sim.env Sim.σ0 Sim.w0 Sim.w0
                    "tcp" ":443" "missing.pem" "key.pem" 30 40
                    zero_Certificate (Some Sim.errNoFile) eq_refl)).
  - exact (proj1 (NewListenerTLS_failure Sim.env Sim.σ0 Sim.w0 Sim.w0
                    "tcp" ":80" "cert.pem" "key.pem" 30 40
                    {| Certificate := ["cert.pem"%string]; PrivateKey := "key.pem" |}
                    None eq_refl)
             nil_Listener Sim.errInUse Sim.w0 eq_refl).
Defined.

Lemma default_NextProtos_run {W : Type} (h : handler W) (σ : heap) (p : ptr)
    (cfg : tls_Config) (w : W) :
  σ !! p = Some (OConfig cfg) ->
  run h (default_NextProtos p) σ w =
  Some (Final tt
          match NextProtos cfg with
          | None => <[p := OConfig (set_NextProtos (Some ["http/1.1"%string]) cfg)]> σ
          | Some _ => σ
          end w []).
Proof.
  intros Hp. unfold default_NextProtos; simpl. rewrite Hp; simpl.
  destruct (NextProtos cfg); simpl; [done|].
  by rewrite Hp.
Qed.

(** C5. The step that fills the protocol list, run on a configuration
    [cfg] at address [p], makes no call and leaves the world as it was;
    when the list of [cfg] is nil, the store afterwards differs at [p]
    only, where the list is ["http/1.1"] and nothing else; when the list
    is set, the store is unchanged.  [NewListenerTLS] runs it on a
    configuration that it has just allocated: whenever its calls return,
    the store afterwards is the store before, every object untouched,
    followed by that configuration with the list ["http/1.1"] and by
    the listener, if one is built.  [timeout.NewListenerTLS] is the same
    function on the tcp network, so all of this holds of it too. *)
Theorem NewListenerTLS_NextProtos {W : Type} (h : handler W) (σ : heap) (w w1 : W)
    (network addr certFile keyFile : string) (readTimeout writeTimeout : Duration)
    (cert : tls_Certificate) (err : error) :
  h (tls_LoadX509KeyPair certFile keyFile) w = Some ((cert, err), w1) ->
  (err = None -> is_Some (h (net_Listen network addr) w1)) ->
  (forall (τ : heap) (p : ptr) (cfg : tls_Config) (v : W),
     τ !! p = Some (OConfig cfg) ->
     exists τ',
       run h (default_NextProtos p) τ v = Some (Final tt τ' v []) /\
       (forall q, q <> p -> τ' !! q = τ !! q) /\
       match NextProtos cfg with
       | None => τ' !! p = Some (OConfig {| NextProtos := Some ["http/1.1"%string];
                                            Certificates := Certificates cfg |})
       | Some _ => τ' = τ
       end) /\
  (exists f new,
     run h (httptimeout.NewListenerTLS network addr certFile keyFile
              readTimeout writeTimeout) σ w = Some f /\
     hp f = σ ++ OConfig {| NextProtos := Some ["http/1.1"%string];
                            Certificates := [cert] |} :: new /\
     (forall p o, σ !! p = Some o -> hp f !! p = Some o)) /\
  timeout.NewListenerTLS addr certFile keyFile readTimeout writeTimeout =
  httptimeout.NewListenerTLS "tcp" addr certFile keyFile readTimeout writeTimeout.
Proof.
  intros Hload Hbind. split; [|split; [|done]].
  - intros τ p cfg v Hp. eexists. split; [by apply default_NextProtos_run|].
    destruct (NextProtos cfg) eqn:Hnp; [done|]. split.
    + intros q Hq. by rewrite list_lookup_insert_ne.
    + rewrite list_lookup_insert_eq; [done|]. by eapply lookup_lt_Some.
  - rewrite NewListenerTLS_run, Hload.
    destruct err as [e|].
    + eexists _, []. split; [reflexivity|]. split; [done|].
      intros p o Hp. by apply lookup_kept.
    + destruct (Hbind eq_refl) as [[[ln [e|]] w2] Hl]; rewrite Hl.
      * eexists _, []. split; [reflexivity|]. split; [done|].
        intros p o Hp. by apply lookup_kept.
      * eexists _, [_]. split; [reflexivity|]. split; [done|].
        intros p o Hp. by apply lookup_kept.
Qed.

(** On the simulated machine, with a configuration of some other server
    already in the store: the listener on port 443 is built, by either
    package, the new configuration has the one protocol, and the other
    configuration is as it was. *)
Lemma NewListenerTLS_NextProtos_witness :
  exists f new,
    run Sim.env (httptimeout.NewListenerTLS "tcp" ":443" "cert.pem" "key.pem" 30 40)
        (Sim.σ0 ++ [Sim.shared]) Sim.w0 = Some f /\
    run Sim.env (timeout.NewListenerTLS ":443" "cert.pem" "key.pem" 30 40)
        (Sim.σ0 ++ [Sim.shared]) Sim.w0 = Some f /\
    hp f = (Sim.σ0 ++ [Sim.shared]) ++
           OConfig {| NextProtos := Some ["http/1.1"%string];
                      Certificates := [{| Certificate := ["cert.pem"%string];
                                          PrivateKey := "key.pem" |}] |} :: new /\
    hp f !! 3%nat = Some Sim.shared.
Proof.
  destruct (NewListenerTLS_NextProtos Sim.env (Sim.σ0 ++ [Sim.shared]) Sim.w0 Sim.w0
              "tcp" ":443" "cert.pem" "key.pem" 30 40
              {| Certificate := ["cert.pem"%string]; PrivateKey := "key.pem" |}
              None eq_refl (fun _ => ex_intro _ _ eq_refl))
    as (_ & (f & new & Hrun & Hhp & Hkept) & Hsame).
  exists f, new.
  refine (conj Hrun (conj _ (conj Hhp (Hkept 3%nat Sim.shared eq_refl)))).
  exact (eq_ind_r (fun m => run Sim.env m (Sim.σ0 ++ [Sim.shared]) Sim.w0 = Some f)
           Hrun Hsame).
Defined.

(** ** The timeouts of an object never change *)

Lemma invoke_grows {W : Type} (h : handler W) (m : method) (σ : heap) (w : W)
    (f : final unit W) :
  run h (invoke m) σ w = Some f -> σ `prefix_of` hp f.
Proof.
  intros Hrun.
  destruct m; cbv beta iota delta [invoke] in Hrun; rewrite run_bind in Hrun;
    rewrite ?timeout_NewListener, ?timeout_NewListenerTLS, ?timeout_NewTransport,
      ?NewListener_run, ?NewListenerTLS_run, ?Dial_run in Hrun;
    simpl in Hrun;
    repeat (case_match; simplify_eq/=; try done);
    solve [reflexivity | by apply prefix_app_r].
Qed.

Lemma invoke_all_grows {W : Type} (h : handler W) (ms : list method) (σ σ' : heap)
    (w w' : W) :
  invoke_all h ms σ w = Some (σ', w') -> σ `prefix_of` σ'.
Proof.
  revert σ w. induction ms as [|m ms IH]; intros σ w Hall; simpl in Hall.
  - by simplify_eq.
  - destruct (run h (invoke m) σ w) as [f|] eqn:Hrun; [|done].
    etrans; [by eapply invoke_grows | by eapply IH].
Qed.



(** ** Some runs on the simulated machine *)

(** Two accepts on the same listener give two connections, each with the
    timeouts of the listener. *)
Example accept_twice :
  fst <$> invoke_all Sim.env [Accept_ 2%nat; Accept_ 2%nat] Sim.σ0 Sim.w0 =
  Some (Sim.σ0 ++
        [OConn {| Conn_Conn := sys_Conn 7; Conn_ReadTimeout := 30;
                  Conn_WriteTimeout := 40 |};
         OConn {| Conn_Conn := sys_Conn 8; Conn_ReadTimeout := 30;
                  Conn_WriteTimeout := 40 |}]).
Proof. reflexivity. Qed.

(** Each read moves the deadline: the second one is set from the later
    clock. *)
Example read_twice_moves_deadline :
  (Sim.read_deadline ∘ snd) <$>
    invoke_all Sim.env [Read_ 0%nat Sim.buf; Read_ 0%nat Sim.buf] Sim.σ0 Sim.w0 =
  Some [(3%nat, 1051); (3%nat, 1050)].
Proof. reflexivity. Qed.

(** A method called through a pointer that is not a [*Conn] does not
    return. *)
Example read_of_listener_panics :
  run Sim.env (Conn_Read 2%nat Sim.buf) Sim.σ0 Sim.w0 = None.
Proof. reflexivity. Qed.

(** The listener built by [NewListenerTLS] accepts through the TLS
    layer over the bound socket. *)
Example tls_listener_accepts :
  match run Sim.env (httptimeout.NewListenerTLS "tcp" ":443" "cert.pem" "key.pem" 30 40)
          Sim.σ0 Sim.w0 with
  | Some f => trace <$> run Sim.env (Listener_Accept 4%nat) (hp f) (world f)
  | None => None
  end = Some [net_Listener_Accept (tls_NewListener (sys_Listener 5) 3%nat)].
Proof. reflexivity. Qed.

(** * Further properties of the packages *)

(** ** The methods of a listener *)

(** X1. [Close] and [Addr] of a [Listener] are those of the embedded
    listener: the same answer, the store as it was, the world as that
    call left it, and no other call.  Closing the wrapper does nothing to
    the wrapper itself. *)
Theorem Listener_passthrough {W : Type} (h : handler W) (σ : heap) (l : ptr)
    (l0 : Listener) (w : W) :
  σ !! l = Some (OListener l0) ->
  run h (Listener_Close l) σ w =
    underlying h (net_Listener_Close (Listener_Listener l0)) σ w /\
  run h (Listener_Addr l) σ w =
    underlying h (net_Listener_Addr (Listener_Listener l0)) σ w.
Proof.
  intros Hl.
  split; unfold underlying; simpl; rewrite Hl; simpl;
    match goal with |- context [h ?k w] => by destruct (h k w) as [[r w']|] end.
Qed.

(** On the simulated machine, closing the listener at address 2 closes
    descriptor 2. *)
Lemma Listener_passthrough_witness :
  run Sim.env (Listener_Close 2%nat) Sim.σ0 Sim.w0 =
    Some (Final None Sim.σ0 (Sim.close 2 Sim.w0) [net_Listener_Close (sys_Listener 2)]) /\
  run Sim.env (Listener_Addr 2%nat) Sim.σ0 Sim.w0 =
    Some (Final Sim.here Sim.σ0 Sim.w0 [net_Listener_Addr (sys_Listener 2)]).
Proof.
  exact (Listener_passthrough Sim.env Sim.σ0 2%nat _ Sim.w0 eq_refl).
Defined.

(** ** What Read and Write never do *)

(** X2. Whenever [Read] returns, its receiver was a [Conn] of the store,
    the clock had answered with some time [now], the store is as it was,
    and the calls made are the clock, the read deadline of the embedded
    connection at [now] plus [ReadTimeout], and then at most one [Read]
    of the embedded connection, on the caller's buffer: there is no
    second attempt, and no call of any other kind.  When the embedded
    [Read] was not reached, the result is zero bytes and an error.
    [Write] is the same with the write deadline, [WriteTimeout] and the
    embedded [Write]. *)
Theorem Conn_Read_Write_calls {W : Type} (h : handler W) (σ : heap) (p : ptr)
    (b : slice) (w : W) (f : final (Z * error) W) :
  (run h (Conn_Read p b) σ w = Some f ->
   exists (c : Conn) (now : Time) (w1 : W),
     σ !! p = Some (OConn c) /\
     h time_Now w = Some (now, w1) /\
     hp f = σ /\
     let set := net_Conn_SetReadDeadline (Conn_Conn c)
                  (Time_Add now (Conn_ReadTimeout c)) in
     (trace f = [time_Now; set] /\ exists e, ret f = (0, Some e)) \/
     trace f = [time_Now; set; net_Conn_Read (Conn_Conn c) b]) /\
  (run h (Conn_Write p b) σ w = Some f ->
   exists (c : Conn) (now : Time) (w1 : W),
     σ !! p = Some (OConn c) /\
     h time_Now w = Some (now, w1) /\
     hp f = σ /\
     let set := net_Conn_SetWriteDeadline (Conn_Conn c)
                  (Time_Add now (Conn_WriteTimeout c)) in
     (trace f = [time_Now; set] /\ exists e, ret f = (0, Some e)) \/
     trace f = [time_Now; set; net_Conn_Write (Conn_Conn c) b]).
Proof.
  split; intros Hrun.
  - assert (exists c, σ !! p = Some (OConn c)) as [c Hp].
    { simpl in Hrun. destruct (σ !! p) as [[c| |]|]; try done; by exists c. }
    rewrite (Conn_Read_run h σ p c Hp) in Hrun.
    destruct (h time_Now w) as [[now w1]|]; [|done].
    exists c, now, w1. split; [done|]. split; [done|]. simpl in Hrun.
    repeat (case_match; simplify_eq/=; try done); eauto.
  - assert (exists c, σ !! p = Some (OConn c)) as [c Hp].
    { simpl in Hrun. destruct (σ !! p) as [[c| |]|]; try done; by exists c. }
    rewrite (Conn_Write_run h σ p c Hp) in Hrun.
    destruct (h time_Now w) as [[now w1]|]; [|done].
    exists c, now, w1. split; [done|]. split; [done|]. simpl in Hrun.
    repeat (case_match; simplify_eq/=; try done); eauto.
Qed.

(** On the simulated machine, where the clock shows 1000: the read
    through the wrapper of the closed descriptor 4 (timeouts 50 and 70),
    which returns [(0, errClosed)] after the calls [time.Now] and
    [SetReadDeadline(1050)]. *)
Lemma Conn_Read_Write_calls_witness :
  exists (c : Conn) (now : Time) (w1 : Sim.net),
    Sim.σ0 !! 1%nat = Some (OConn c) /\
    Sim.env time_Now Sim.w0 = Some (now, w1) /\
    Sim.σ0 = Sim.σ0 /\
    (([time_Now; net_Conn_SetReadDeadline (sys_Conn 4) 1050] =
      [time_Now; net_Conn_SetReadDeadline (Conn_Conn c)
                   (Time_Add now (Conn_ReadTimeout c))] /\
      exists e, (0, Some Sim.errClosed) = (0, Some e)) \/
     [time_Now; net_Conn_SetReadDeadline (sys_Conn 4) 1050] =
     [time_Now; net_Conn_SetReadDeadline (Conn_Conn c)
                  (Time_Add now (Conn_ReadTimeout c));
      net_Conn_Read (Conn_Conn c) Sim.buf]).
Proof.
  exact (proj1 (Conn_Read_Write_calls Sim.env Sim.σ0 1%nat Sim.buf Sim.w0
                  (Final (0, Some Sim.errClosed) Sim.σ0 (Sim.tick Sim.w0)
                     [time_Now; net_Conn_SetReadDeadline (sys_Conn 4) 1050]))
           eq_refl).
Defined.

(** ** How the operations compose *)

Lemma governs_intro {W : Type} (h : handler W) (σ : heap) (p : ptr) (c : Conn) :
  σ !! p = Some (OConn c) ->
  governs h p (Conn_Conn c) (Conn_ReadTimeout c) (Conn_WriteTimeout c) σ.
Proof.
  intros Hp ρ b u Hext.
  assert (ρ !! p = Some (OConn c)) as Hρ by (by eapply prefix_lookup_Some).
  rewrite (Conn_Read_run h ρ p c Hρ), (Conn_Write_run h ρ p c Hρ).
  unfold bounded_read, bounded_write, underlying, preceded_by.
  split; repeat (case_match; simplify_eq/=; try done).
Qed.

Lemma accepts_with_intro {W : Type} (h : handler W) (σ : heap) (l : ptr)
    (l0 : Listener) :
  σ !! l = Some (OListener l0) ->
  accepts_with h l (Listener_Listener l0)
    (Listener_ReadTimeout l0) (Listener_WriteTimeout l0) σ.
Proof.
  intros Hl τ v v1 c Hext Hacc.
  assert (τ !! l = Some (OListener l0)) as Hτ by (by eapply prefix_lookup_Some).
  rewrite (Listener_Accept_run h τ l l0 v Hτ), Hacc.
  eexists _, _. repeat (split; [reflexivity|]).
  exact (governs_intro h _ _ _ (lookup_fresh τ _)).
Qed.

(** X3. Accept and then Read or Write.  For a [Listener] in the store,
    at any later time: an [Accept] through it that succeeds makes one
    call, the [Accept] of the embedded listener, and from then on every
    [Read] through the connection it returned is a read of the accepted
    connection under a deadline [ReadTimeout] of the listener after the
    time of that read, and every [Write] a write under [WriteTimeout]. *)
Theorem Accept_then_Read_Write {W : Type} (h : handler W) (σ : heap) (l : ptr)
    (l0 : Listener) :
  σ !! l = Some (OListener l0) ->
  forall (τ : heap) (v v1 : W) (c : net_Conn),
    σ `prefix_of` τ ->
    h (net_Listener_Accept (Listener_Listener l0)) v = Some ((c, None), v1) ->
    exists g p,
      run h (Listener_Accept l) τ v = Some g /\
      ret g = (ptr_Conn p, None) /\
      trace g = [net_Listener_Accept (Listener_Listener l0)] /\
      forall (ρ : heap) (b : slice) (u : W),
        hp g `prefix_of` ρ ->
        run h (Conn_Read p b) ρ u =
          bounded_read h c (Listener_ReadTimeout l0) b ρ u /\
        run h (Conn_Write p b) ρ u =
          bounded_write h c (Listener_WriteTimeout l0) b ρ u.
Proof.
  intros Hl τ v v1 c Hext Hacc.
  destruct (accepts_with_intro h σ l l0 Hl τ v v1 c Hext Hacc)
    as (g & p & Hrun & Hret & _ & Htrace & Hgov).
  by exists g, p.
Qed.

(** On the simulated machine: the peer 7 is accepted by the listener at
    address 2, and a read through the new connection sets the deadline
    30 after the clock. *)
Lemma Accept_then_Read_Write_witness :
  exists g p,
    run Sim.env (Listener_Accept 2%nat) Sim.σ0 Sim.w0 = Some g /\
    ret g = (ptr_Conn p, None) /\
    run Sim.env (Conn_Read p Sim.buf) (hp g) (world g) =
      bounded_read Sim.env (sys_Conn 7) 30 Sim.buf (hp g) (world g).
Proof.
  destruct (Accept_then_Read_Write Sim.env Sim.σ0 2%nat _ eq_refl Sim.σ0 Sim.w0
              (Sim.pop_backlog Sim.w0) (sys_Conn 7) (reflexivity _) eq_refl)
    as (g & p & Hrun & Hret & _ & Hgov).
  exists g, p.
  exact (conj Hrun (conj Hret (proj1 (Hgov (hp g) Sim.buf (world g) (reflexivity _))))).
Defined.

(** X4. The two timeouts given to [NewListener] govern every connection
    of the listener.  When the bind succeeds with [ln], the function
    returns a pointer to a [Listener], and at any later time a
    successful [Accept] through that pointer is one [Accept] of [ln]
    whose connection is read under [readTimeout] and written under
    [writeTimeout].  With the network tcp this is [timeout.NewListener]. *)
Theorem NewListener_timeouts_govern {W : Type} (h : handler W) (σ : heap) (w w1 : W)
    (network addr : string) (readTimeout writeTimeout : Duration)
    (ln : net_Listener) :
  h (net_Listen network addr) w = Some ((ln, None), w1) ->
  exists f l,
    run h (httptimeout.NewListener network addr readTimeout writeTimeout) σ w
      = Some f /\
    (network = "tcp"%string ->
     run h (timeout.NewListener addr readTimeout writeTimeout) σ w = Some f) /\
    ret f = (ptr_Listener l, None) /\
    accepts_with h l ln readTimeout writeTimeout (hp f).
Proof.
  intros Hbind.
  rewrite NewListener_run, Hbind.
  eexists _, _. split; [reflexivity|]. split.
  - intros ->. by rewrite timeout_NewListener, NewListener_run, Hbind.
  - split; [reflexivity|]. simpl.
    exact (accepts_with_intro h _ _ _ (lookup_fresh σ _)).
Qed.

(** On the simulated machine: the listener bound to port 8080 with the
    timeouts 30 and 40. *)
Lemma NewListener_timeouts_govern_witness :
  exists f l,
    run Sim.env (httptimeout.NewListener "tcp" ":8080" 30 40) Sim.σ0 Sim.w0 = Some f /\
    run Sim.env (timeout.NewListener ":8080" 30 40) Sim.σ0 Sim.w0 = Some f /\
    ret f = (ptr_Listener l, None) /\
    accepts_with Sim.env l (sys_Listener 5) 30 40 (hp f).
Proof.
  destruct (NewListener_timeouts_govern Sim.env Sim.σ0 Sim.w0
              (Sim.bind_addr ":8080" Sim.w0) "tcp" ":8080" 30 40 (sys_Listener 5)
              eq_refl) as (f & l & Hrun & Htcp & Hret & Hacc).
  exists f, l. exact (conj Hrun (conj (Htcp eq_refl) (conj Hret Hacc))).
Defined.

(** X5. [NewListenerTLS], when the key pair loads as [cert] and the bind
    succeeds with [ln]: it has called [tls.LoadX509KeyPair] and then
    [net.Listen], it has allocated a configuration whose protocol list
    is ["http/1.1"] and whose certificates are [cert] alone, and a
    [Listener] around [tls.NewListener(ln, config)], to which it returns
    a pointer.  At any later time a successful [Accept] through that
    pointer is one [Accept] of that TLS listener, not of the socket, and
    its connection is read under [readTimeout] and written under
    [writeTimeout].  With the network tcp this is
    [timeout.NewListenerTLS]. *)
Theorem NewListenerTLS_success {W : Type} (h : handler W) (σ : heap) (w w1 w2 : W)
    (network addr certFile keyFile : string) (readTimeout writeTimeout : Duration)
    (cert : tls_Certificate) (ln : net_Listener) :
  h (tls_LoadX509KeyPair certFile keyFile) w = Some ((cert, None), w1) ->
  h (net_Listen network addr) w1 = Some ((ln, None), w2) ->
  exists f l config,
    run h (httptimeout.NewListenerTLS network addr certFile keyFile
             readTimeout writeTimeout) σ w = Some f /\
    (network = "tcp"%string ->
     run h (timeout.NewListenerTLS addr certFile keyFile readTimeout writeTimeout) σ w
       = Some f) /\
    ret f = (ptr_Listener l, None) /\
    world f = w2 /\
    trace f = [tls_LoadX509KeyPair certFile keyFile; net_Listen network addr] /\
    hp f = σ ++ [OConfig {| NextProtos := Some ["http/1.1"%string];
                            Certificates := [cert] |};
                 OListener {| Listener_Listener := tls_NewListener ln config;
                              Listener_ReadTimeout := readTimeout;
                              Listener_WriteTimeout := writeTimeout |}] /\
    config = length σ /\ l = S (length σ) /\
    accepts_with h l (tls_NewListener ln config) readTimeout writeTimeout (hp f).
Proof.
  intros Hload Hbind.
  rewrite NewListenerTLS_run, Hload, Hbind.
  eexists _, _, _. split; [reflexivity|]. split.
  - intros ->. by rewrite timeout_NewListenerTLS, NewListenerTLS_run, Hload, Hbind.
  - repeat (split; [reflexivity|]). simpl.
    refine (accepts_with_intro h _ _
              {| Listener_Listener := tls_NewListener ln (length σ);
                 Listener_ReadTimeout := readTimeout;
                 Listener_WriteTimeout := writeTimeout |} _).
    rewrite lookup_app_r by lia.
    by replace (S (length σ) - length σ)%nat with 1%nat by lia.
Qed.

(** On the simulated machine: the TLS listener on port 443. *)
Lemma NewListenerTLS_success_witness :
  exists f,
    run Sim.env (httptimeout.NewListenerTLS "tcp" ":443" "cert.pem" "key.pem" 30 40)
        Sim.σ0 Sim.w0 = Some f /\
    run Sim.env (timeout.NewListenerTLS ":443" "cert.pem" "key.pem" 30 40)
        Sim.σ0 Sim.w0 = Some f /\
    ret f = (ptr_Listener 4, None) /\
    accepts_with Sim.env 4%nat (tls_NewListener (sys_Listener 5) 3%nat) 30 40 (hp f).
Proof.
  destruct (NewListenerTLS_success Sim.env Sim.σ0 Sim.w0 Sim.w0
              (Sim.bind_addr ":443" Sim.w0) "tcp" ":443" "cert.pem" "key.pem" 30 40
              {| Certificate := ["cert.pem"%string]; PrivateKey := "key.pem" |}
              (sys_Listener 5) eq_refl eq_refl)
    as (f & l & config & Hrun & Htcp & Hret & _ & _ & _ & -> & -> & Hacc).
  exists f. exact (conj Hrun (conj (Htcp eq_refl) (conj Hret Hacc))).
Defined.

(** X6. The timeouts given to [NewTransport] govern every connection it
    dials.  When the connect of [Dial] succeeds with [conn], [Dial]
    returns a pointer to a [Conn], and from then on every [Read] through
    it is a read of [conn] under a deadline [readTimeout] after the time
    of that read, and every [Write] a write under [writeTimeout]; in
    package [timeout], where the connect is bounded by [timeout], both
    are under [timeout]. *)
Theorem NewTransport_timeouts_govern {W : Type} (h : handler W) (σ : heap) (w w1 : W)
    (addr0 : string) (readTimeout writeTimeout : Duration) (network addr : string)
    (conn : net_Conn) :
  h (net_DialTimeout network addr readTimeout) w = Some ((conn, None), w1) ->
  (exists f p,
     run h (Transport_Dial (httptimeout.NewTransport addr0 readTimeout writeTimeout)
              network addr) σ w = Some f /\
     ret f = (ptr_Conn p, None) /\
     governs h p conn readTimeout writeTimeout (hp f)) /\
  (exists f p,
     run h (Transport_Dial (timeout.NewTransport addr0 readTimeout) network addr) σ w
       = Some f /\
     ret f = (ptr_Conn p, None) /\
     governs h p conn readTimeout readTimeout (hp f)).
Proof.
  intros Hdial. split.
  - rewrite Dial_run, Hdial. eexists _, _. repeat (split; [reflexivity|]). simpl.
    exact (governs_intro h _ _ _ (lookup_fresh σ _)).
  - rewrite timeout_NewTransport, Dial_run, Hdial.
    eexists _, _. repeat (split; [reflexivity|]). simpl.
    exact (governs_intro h _ _ _ (lookup_fresh σ _)).
Qed.

(** On the simulated machine: a dial with a read timeout of 20 and a
    write timeout of 90, which gets descriptor 5. *)
Lemma NewTransport_timeouts_govern_witness :
  exists f p,
    run Sim.env (Transport_Dial (httptimeout.NewTransport "example.org:80" 20 90)
                   "tcp" "10.0.0.2:80") Sim.σ0 Sim.w0 = Some f /\
    ret f = (ptr_Conn p, None) /\
    governs Sim.env p (sys_Conn 5) 20 90 (hp f).
Proof.
  exact (proj1 (NewTransport_timeouts_govern Sim.env Sim.σ0 Sim.w0 (Sim.open_fd Sim.w0)
                  "example.org:80" 20 90 "tcp" "10.0.0.2:80" (sys_Conn 5) eq_refl)).
Defined.

(** X7. Two accepts on one listener.  When an [Accept] has returned a
    pointer to a [Conn] holding [c1], and a later [Accept] through the
    same pointer, in the store as it then is, succeeds with [c2], the
    second result is a pointer to a different [Conn]; after the second
    accept the first object still holds [c1], the second holds [c2],
    and both have the timeouts of the listener.  The connections of one
    listener share no object. *)
Theorem Accept_twice_independent {W : Type} (h : handler W) (σ : heap) (l : ptr)
    (l0 : Listener) (w w1 : W) (c1 : net_Conn) :
  let wrap c := OConn {| Conn_Conn := c;
                         Conn_ReadTimeout := Listener_ReadTimeout l0;
                         Conn_WriteTimeout := Listener_WriteTimeout l0 |} in
  σ !! l = Some (OListener l0) ->
  h (net_Listener_Accept (Listener_Listener l0)) w = Some ((c1, None), w1) ->
  exists f1 p1,
    run h (Listener_Accept l) σ w = Some f1 /\
    ret f1 = (ptr_Conn p1, None) /\
    hp f1 !! p1 = Some (wrap c1) /\
    forall (τ : heap) (v v1 : W) (c2 : net_Conn),
      hp f1 `prefix_of` τ ->
      h (net_Listener_Accept (Listener_Listener l0)) v = Some ((c2, None), v1) ->
      exists f2 p2,
        run h (Listener_Accept l) τ v = Some f2 /\
        ret f2 = (ptr_Conn p2, None) /\
        p1 <> p2 /\
        hp f2 !! p1 = Some (wrap c1) /\
        hp f2 !! p2 = Some (wrap c2).
Proof.
  intros wrap Hl Hacc1.
  rewrite (Listener_Accept_run h σ l l0 w Hl), Hacc1.
  eexists _, _. split; [reflexivity|]. split; [reflexivity|].
  split; [apply lookup_fresh|].
  intros τ v v1 c2 Hext Hacc2. cbn [hp] in Hext.
  assert (τ !! l = Some (OListener l0)) as Hτ.
  { eapply prefix_lookup_Some; [|done]. by apply lookup_kept. }
  assert (τ !! length σ = Some (wrap c1)) as Hp1.
  { eapply prefix_lookup_Some; [|done]. apply lookup_fresh. }
  rewrite (Listener_Accept_run h τ l l0 v Hτ), Hacc2.
  eexists _, _. repeat (split; [reflexivity|]). simpl.
  split; [|split].
  - apply lookup_lt_Some in Hp1. lia.
  - by apply lookup_kept.
  - apply lookup_fresh.
Qed.

(** On the simulated machine: the peers 7 and 8, accepted one after the
    other by the listener at address 2. *)
Lemma Accept_twice_independent_witness :
  exists f1 p1 f2 p2,
    run Sim.env (Listener_Accept 2%nat) Sim.σ0 Sim.w0 = Some f1 /\
    ret f1 = (ptr_Conn p1, None) /\
    run Sim.env (Listener_Accept 2%nat) (hp f1) (Sim.pop_backlog Sim.w0) = Some f2 /\
    ret f2 = (ptr_Conn p2, None) /\
    p1 <> p2 /\
    hp f2 !! p1 = Some (OConn {| Conn_Conn := sys_Conn 7; Conn_ReadTimeout := 30;
                                 Conn_WriteTimeout := 40 |}) /\
    hp f2 !! p2 = Some (OConn {| Conn_Conn := sys_Conn 8; Conn_ReadTimeout := 30;
                                 Conn_WriteTimeout := 40 |}).
Proof.
  destruct (Accept_twice_independent Sim.env Sim.σ0 2%nat _ Sim.w0
              (Sim.pop_backlog Sim.w0) (sys_Conn 7) eq_refl eq_refl)
    as (f1 & p1 & Hrun1 & Hret1 & _ & Hnext).
  destruct (Hnext (hp f1) (Sim.pop_backlog Sim.w0)
              (Sim.pop_backlog (Sim.pop_backlog Sim.w0)) (sys_Conn 8)
              (reflexivity _) eq_refl)
    as (f2 & p2 & Hrun2 & Hret2 & Hne & Hfirst & Hsecond).
  exists f1, p1, f2, p2.
  exact (conj Hrun1 (conj Hret1 (conj Hrun2 (conj Hret2
           (conj Hne (conj Hfirst Hsecond)))))).
Defined.

(** ** The store through a sequence of operations *)

(** X8. Through any sequence of operations of the packages, in any
    environment, every object that was in the store is there unchanged,
    at the same address: a [Conn] keeps the connection it wraps as well
    as its timeouts, a [Listener] its listener, and a configuration its
    protocol list and its certificates.  No operation frees or replaces
    an object; the store only grows at its end. *)
Theorem store_append_only {W : Type} (h : handler W) (ms : list method)
    (σ σ' : heap) (w w' : W) :
  invoke_all h ms σ w = Some (σ', w') ->
  (exists τ : heap, σ' = σ ++ τ) /\
  (forall (p : ptr) (o : obj), σ !! p = Some o -> σ' !! p = Some o) /\
  (forall (p : ptr) (c : Conn),
     σ !! p = Some (OConn c) ->
     exists c', σ' !! p = Some (OConn c') /\ Conn_Conn c' = Conn_Conn c) /\
  (forall (p : ptr) (l : Listener),
     σ !! p = Some (OListener l) ->
     exists l', σ' !! p = Some (OListener l') /\
                Listener_Listener l' = Listener_Listener l).
Proof.
  intros Hall. apply invoke_all_grows in Hall as [τ ->].
  split; [by exists τ|].
  split; [intros p o Hp; by apply lookup_kept|].
  split; intros p x Hp; exists x; (split; [by apply lookup_kept | done]).
Qed.

(** After the session on the simulated machine: the wrapper at address 0
    still wraps descriptor 3, though it was written to and had its
    deadline moved, and the listener still listens on descriptor 2. *)
Lemma store_append_only_witness :
  (exists c', Sim.σ_end !! 0%nat = Some (OConn c') /\ Conn_Conn c' = sys_Conn 3) /\
  (exists l', Sim.σ_end !! 2%nat = Some (OListener l') /\
              Listener_Listener l' = sys_Listener 2).
Proof.
  destruct (store_append_only Sim.env Sim.session Sim.σ0 Sim.σ_end Sim.w0 Sim.w_end
              eq_refl) as (_ & _ & HC & HL).
  exact (conj (HC 0%nat _ eq_refl) (HL 2%nat _ eq_refl)).
Defined.

(** ** Package [timeout] binds tcp *)

(** X9. In package [timeout], where the constructors take no network,
    every bind is a bind on tcp at the address given: in a run of
    [NewListener] that returns, the calls are the one
    [net.Listen("tcp", addr)]; in a run of [NewListenerTLS] that
    returns, every [net.Listen] call is that one. *)
Theorem timeout_binds_tcp {W : Type} (h : handler W) (σ : heap) (w : W)
    (addr certFile keyFile : string) (readTimeout writeTimeout : Duration)
    (f : final (net_Listener * error) W) :
  (run h (timeout.NewListener addr readTimeout writeTimeout) σ w = Some f ->
   trace f = [net_Listen "tcp" addr]) /\
  (run h (timeout.NewListenerTLS addr certFile keyFile readTimeout writeTimeout) σ w
     = Some f ->
   forall network a, net_Listen network a ∈ trace f ->
                     network = "tcp"%string /\ a = addr).
Proof.
  split; intros Hrun.
  - rewrite timeout_NewListener, NewListener_run in Hrun.
    by repeat (case_match; simplify_eq/=; try done).
  - rewrite timeout_NewListenerTLS, NewListenerTLS_run in Hrun.
    intros network a Hin.
    repeat (case_match; simplify_eq/=; try done);
      repeat (apply elem_of_cons in Hin as [Hin|Hin]; simplify_eq; try done);
      by apply elem_of_nil in Hin.
Qed.

(** On the simulated machine: the listener on port 8080. *)
Lemma timeout_binds_tcp_witness :
  trace (Final (ptr_Listener 3, @None string)
           (Sim.σ0 ++ [OListener {| Listener_Listener := sys_Listener 5;
                                    Listener_ReadTimeout := 30;
                                    Listener_WriteTimeout := 40 |}])
           (Sim.bind_addr ":8080" Sim.w0) [net_Listen "tcp" ":8080"]) =
  [net_Listen "tcp" ":8080"].
Proof.
  exact (proj1 (timeout_binds_tcp Sim.env Sim.σ0 Sim.w0 ":8080" "cert.pem" "key.pem"
                  30 40 _) eq_refl).
Defined.

(** ** No panic of the packages' own *)

(** X10. In an environment where every call to the runtime returns (the
    functions of [time], [net] and [crypto/tls], and the methods of the
    runtime's own connections and listeners; nothing is asked of a call
    on nil or on a wrapper), the constructors and [Dial] return,
    whatever their arguments and whatever the runtime answers: the
    assignment to [config.Certificates[0]] is in range and every pointer
    they dereference is one they have allocated.  The methods of a
    [Conn] of the store that wraps a connection of the runtime return,
    and so do those of a [Listener] that wraps a listener of the
    runtime. *)
Theorem no_panic {W : Type} (h : handler W) (σ : heap) (w : W) :
  (forall (c : call) (v : W), runtime_call c = true -> is_Some (h c v)) ->
  (forall network addr certFile keyFile readTimeout writeTimeout,
     is_Some (run h (httptimeout.NewListener network addr readTimeout writeTimeout)
                σ w) /\
     is_Some (run h (httptimeout.NewListenerTLS network addr certFile keyFile
                       readTimeout writeTimeout) σ w) /\
     is_Some (run h (timeout.NewListener addr readTimeout writeTimeout) σ w) /\
     is_Some (run h (timeout.NewListenerTLS addr certFile keyFile
                       readTimeout writeTimeout) σ w) /\
     (forall addr0,
        is_Some (run h (Transport_Dial
                          (httptimeout.NewTransport addr0 readTimeout writeTimeout)
                          network addr) σ w) /\
        is_Some (run h (Transport_Dial (timeout.NewTransport addr0 readTimeout)
                          network addr) σ w))) /\
  (forall (p : ptr) (c : Conn) (b : slice),
     σ !! p = Some (OConn c) ->
     runtime_Conn (Conn_Conn c) = true ->
     is_Some (run h (Conn_Read p b) σ w) /\
     is_Some (run h (Conn_Write p b) σ w) /\
     is_Some (run h (Conn_Close p) σ w)) /\
  (forall (l : ptr) (l0 : Listener),
     σ !! l = Some (OListener l0) ->
     runtime_Listener (Listener_Listener l0) = true ->
     is_Some (run h (Listener_Accept l) σ w) /\
     is_Some (run h (Listener_Close l) σ w)).
Proof.
  intros Htotal.
  assert (forall (c : call) (v : W),
            runtime_call c = true -> exists r v', h c v = Some (r, v')) as Hret.
  { intros c v Hc. destruct (Htotal c v Hc) as [[r v'] Hcv]. by exists r, v'. }
  split; [|split].
  - intros network addr certFile keyFile readTimeout writeTimeout.
    rewrite timeout_NewListener, timeout_NewListenerTLS, !NewListener_run,
      !NewListenerTLS_run.
    repeat split; intros; rewrite ?timeout_NewTransport, ?Dial_run;
      repeat first
        [ match goal with
          | |- context [h ?c ?v] =>
              let E := fresh in
              destruct (Hret c v eq_refl) as (? & ? & E); rewrite E
          end
        | case_match ];
      simplify_eq; by eexists.
  - intros p c b Hp Hc.
    rewrite (Conn_Read_run h σ p c Hp), (Conn_Write_run h σ p c Hp).
    simpl. rewrite Hp. simpl.
    repeat split;
      repeat first
        [ match goal with
          | |- context [h ?c ?v] =>
              let E := fresh in
              destruct (Hret c v ltac:(first [exact eq_refl | exact Hc]))
                as (? & ? & E); rewrite E
          end
        | case_match ];
      simplify_eq; by eexists.
  - intros l l0 Hl Hln.
    rewrite (Listener_Accept_run h σ l l0 w Hl). simpl. rewrite Hl. simpl.
    repeat split;
      repeat first
        [ match goal with
          | |- context [h ?c ?v] =>
              let E := fresh in
              destruct (Hret c v Hln) as (? & ? & E); rewrite E
          end
        | case_match ];
      simplify_eq; by eexists.
Qed.

(** On the network that is down, from the store of the simulated
    machine: the TLS constructor returns (with the error of the
    runtime), and so does a read through the wrapper of descriptor 3. *)
Lemma no_panic_witness :
  is_Some (run unplugged
             (httptimeout.NewListenerTLS "tcp" ":443" "cert.pem" "key.pem" 30 40)
             Sim.σ0 tt) /\
  is_Some (run unplugged (Conn_Read 0%nat Sim.buf) Sim.σ0 tt).
Proof.
  assert (forall (c : call) (v : unit),
            runtime_call c = true -> is_Some (unplugged c v)) as Hanswers.
  { intros c v Hc. unfold unplugged. rewrite Hc. exact (ex_intro _ _ eq_refl). }
  destruct (no_panic unplugged Sim.σ0 tt Hanswers) as (Hnew & Hconn & _).
  exact (conj (proj1 (proj2 (Hnew "tcp" ":443" "cert.pem" "key.pem" 30 40)))
              (proj1 (Hconn 0%nat _ Sim.buf eq_refl eq_refl))).
Defined.
